(** * Organization-membership reconciliation (api/services/FederalistUsersHelper.js)

    A shallow embedding of the four batch operations of
    [FederalistUsersHelper.js] and of the collaborators they call
    (the [User] model, the [GitHub] service, [EventCreator] and the logger),
    followed by the properties of the operations.

    Conventions of the embedding.
    - A promise is identified with the outcome it settles to ([Promise]).
    - Synchronous code is a state-and-writer computation ([Sync]) over the
      roster table, the directory oracle and the clock; it appends the
      effects it issues to a trace.  An [async] function is a [Sync]
      computation that yields a promise ([Async]); [await] is the bind of
      [Async], which stops at the first rejection.
    - Requests are recorded in the trace at the point where the source issues
      them.  Handlers that run when a promise settles ([.catch] in
      [removeMember]) are recorded right after the request they belong to:
      the trace is one sequentialisation of the run, and the properties below
      only speak of sub-traces per kind of effect. *)

From Stdlib Require Import String Ascii List ZArith Bool Lia.
Import ListNotations.
Open Scope string_scope.
Open Scope Z_scope.
Open Scope list_scope.

(** ** Values *)

(** A JavaScript [Error]: its [name] and [message]. *)
Record JsError : Type := mkError { name : string; message : string }.

(** The error thrown by reading a property of [null]
    ([auditor.githubAccessToken]). *)
Definition TypeError_null (prop : string) : JsError :=
  {| name := "TypeError";
     message := ("Cannot read properties of null (reading '" ++ prop ++ "')")%string |}.

(** The error thrown by destructuring [null]
    ([const { githubAccessToken } = null]). *)
Definition TypeError_destructure (prop : string) : JsError :=
  {| name := "TypeError";
     message := ("Cannot destructure property '" ++ prop
                 ++ "' of '(intermediate value)' as it is null.")%string |}.

Inductive Promise (A : Type) : Type :=
| Fulfilled (a : A)
| Rejected (e : JsError).
Arguments Fulfilled {A} a.
Arguments Rejected {A} e.

(** [Promise.all]: fulfilled with all the values when every promise is,
    rejected as soon as one is (here: with the first rejection in list
    order; which rejection wins in the source depends on settling time). *)
Fixpoint Promise_all {A : Type} (ps : list (Promise A)) : Promise (list A) :=
  match ps with
  | [] => Fulfilled []
  | Fulfilled a :: ps' =>
      match Promise_all ps' with
      | Fulfilled l => Fulfilled (a :: l)
      | Rejected e => Rejected e
      end
  | Rejected e :: _ => Rejected e
  end.

(** [String.prototype.toLowerCase], on the ASCII letters (directory logins
    are ASCII; other characters are left as they are). *)
Definition toLowerAscii (c : ascii) : ascii :=
  let n := nat_of_ascii c in
  if (Nat.leb 65 n && Nat.leb n 90)%bool then ascii_of_nat (n + 32) else c.

Fixpoint toLowerCase (s : string) : string :=
  match s with
  | EmptyString => EmptyString
  | String c s' => String (toLowerAscii c) (toLowerCase s')
  end.

(** [Array.prototype.includes] on an array of strings. *)
Definition includes (l : list string) (s : string) : bool :=
  existsb (String.eqb s) l.

(** ** Data model *)

(** A row of the [User] table (the roster). Timestamps are milliseconds since
    the epoch; a timestamp column may be [NULL]. *)
Record User : Type := mkUser {
  id : Z;
  username : string;
  githubAccessToken : string;
  isActive : bool;
  signedInAt : option Z;
  pushedAt : option Z;
  createdAt : option Z
}.

(** A member record returned by the directory. *)
Record Member : Type := mkMember { login : string }.

(** [config.federalistUsers]. *)
Record Config : Type := mkConfig {
  orgName : string;
  maxDaysSinceLogin : Z;
  admin : string;
  teams18F : list string
}.

(** [Event.labels]. *)
Inductive EventLabel : Type := UPDATED | FEDERALIST_USERS.

(** The row returned by [User.update] under [returning: ['id', 'isActive']]. *)
Record Returned : Type := mkReturned { ret_id : Z; ret_isActive : bool }.

(** ** Sequelize [where] objects *)

Inductive DateAttr : Type := signedInAt_attr | pushedAt_attr | createdAt_attr.

(** One key of a [where] object. *)
Inductive Cond : Type :=
| username_eq (s : string)             (* username: s *)
| username_in (l : list string)        (* username: { [Op.in]: l } *)
| username_notIn (l : list string)     (* username: { [Op.notIn]: l } *)
| isActive_eq (b : bool)               (* isActive: b *)
| date_lt (a : DateAttr) (d : Z).      (* a: { [Op.lt]: d } *)

(** A [where] object: the conjunction of its keys. *)
Definition Where : Type := list Cond.

Definition date_of (a : DateAttr) (u : User) : option Z :=
  match a with
  | signedInAt_attr => signedInAt u
  | pushedAt_attr => pushedAt u
  | createdAt_attr => createdAt u
  end.

(** Modelled from the spec: the Roster Store (the [User] model of
    api/models and the database behind it) is not among the sources. Its
    queries are the interfaces of the spec's section 6; a condition is
    evaluated as the database (Postgres, see api/bull-board/config.js) does:
    text is compared exactly, and a comparison with [NULL] selects nothing. *)
Definition eval_cond (c : Cond) (u : User) : bool :=
  match c with
  | username_eq s => String.eqb (username u) s
  | username_in l => includes l (username u)
  | username_notIn l => negb (includes l (username u))
  | isActive_eq b => Bool.eqb (isActive u) b
  | date_lt a d =>
      match date_of a u with
      | Some t => t <? d
      | None => false
      end
  end.

Definition eval_where (w : Where) (u : User) : bool :=
  forallb (fun c => eval_cond c u) w.

(** ** The world and its effects *)

(** The directory behind the [GitHub] service: what each request settles to.
    Every operation performs all its reads before its first removal, so the
    answers do not depend on earlier removals of the same run. *)
Record GitHub : Type := mkGitHub {
  getOrganizationMembers_ : string -> string -> option string -> Promise (list Member);
  getTeamMembers_ : string -> string -> string -> Promise (list Member);
  removeOrganizationMember_ : string -> string -> string -> Promise unit
}.

Record World : Type := mkWorld {
  users : list User;      (* the User table *)
  github : GitHub;        (* the directory *)
  clock : Z               (* the current time, in milliseconds *)
}.

Inductive Effect : Type :=
| Call_getOrganizationMembers (token org : string) (role : option string)
| Call_getTeamMembers (token org team : string)
| Call_removeOrganizationMember (token org login_ : string)
| Call_update (isActive_ : bool) (where_ : Where)
| Audit_event (label : EventLabel) (model : Returned) (action_isActive : bool)
| Error_event (label : EventLabel) (error : JsError) (login_ : string) (action : string)
| Logger_info (msg : string).

Definition Trace : Type := list Effect.

(** ** Synchronous and asynchronous computations *)

Definition Sync (A : Type) : Type := World -> A * World * Trace.

Definition Async (A : Type) : Type := Sync (Promise A).

Definition ret {A : Type} (a : A) : Sync A := fun w => (a, w, []).

Definition emit (e : Effect) : Sync unit := fun w => (tt, w, [e]).

Definition bindS {A B : Type} (m : Sync A) (k : A -> Sync B) : Sync B :=
  fun w =>
    let '(a, w1, t1) := m w in
    let '(b, w2, t2) := k a w1 in
    (b, w2, t1 ++ t2).

(** [await m] followed by [k]: a rejection of [m] ends the computation. *)
Definition bindA {A B : Type} (m : Async A) (k : A -> Async B) : Async B :=
  fun w =>
    match m w with
    | (Fulfilled a, w1, t1) =>
        let '(b, w2, t2) := k a w1 in (b, w2, t1 ++ t2)
    | (Rejected e, w1, t1) => (Rejected e, w1, t1)
    end.

Definition resolve {A : Type} (a : A) : Async A := ret (Fulfilled a).

Definition throw {A : Type} (e : JsError) : Async A := ret (Rejected e).

Declare Scope js_scope.
Delimit Scope js_scope with js.
Notation "'let!' x ':=' m 'in' k" := (bindS m (fun x => k))
  (at level 10, x name, m at level 100, k at level 200) : js_scope.
Notation "'await' x ':=' m 'in' k" := (bindA m (fun x => k))
  (at level 10, x name, m at level 100, k at level 200) : js_scope.
Notation "m ';;' k" := (bindS m (fun _ => k))
  (at level 100, right associativity) : js_scope.
Open Scope js_scope.

(** [l.map(f)] where [f] has effects: the calls are made in order. *)
Fixpoint mapS {A B : Type} (f : A -> Sync B) (l : list A) : Sync (list B) :=
  match l with
  | [] => ret []
  | x :: l' =>
      let! y := f x in
      let! ys := mapS f l' in
      ret (y :: ys)
  end.

(** A [forEach] whose body pushes onto a local array: the pushed values, in
    order. *)
Fixpoint forEach_push {A B : Type} (f : A -> Sync (list B)) (l : list A)
  : Sync (list B) :=
  match l with
  | [] => ret []
  | x :: l' =>
      let! ys := f x in
      let! zs := forEach_push f l' in
      ret (ys ++ zs)
  end.

Definition run_trace {A : Type} (r : A * World * Trace) : Trace := snd r.
Definition run_world {A : Type} (r : A * World * Trace) : World := snd (fst r).
Definition run_result {A : Type} (r : A * World * Trace) : A := fst (fst r).

(** ** Collaborators *)

(** [User.findOne({ where })]: the first matching row, or [null]. *)
Definition User_findOne (where_ : Where) : Async (option User) :=
  fun w => (Fulfilled (find (eval_where where_) (users w)), w, []).

(** [User.findAll({ attributes: ['username'], where })]: the matching rows,
    of which only [username] is loaded. *)
Definition User_findAll (where_ : Where) : Async (list string) :=
  fun w => (Fulfilled (map username (filter (eval_where where_) (users w))), w, []).

Definition set_isActive (b : bool) (u : User) : User :=
  {| id := id u; username := username u;
     githubAccessToken := githubAccessToken u; isActive := b;
     signedInAt := signedInAt u; pushedAt := pushedAt u;
     createdAt := createdAt u |}.

Definition returning (u : User) : Returned :=
  {| ret_id := id u; ret_isActive := isActive u |}.

(** [User.update({ isActive: b }, { where, returning: ['id', 'isActive'] })]:
    every matching row is updated; the promise is fulfilled with the number
    of updated rows and the updated rows. *)
Definition User_update (b : bool) (where_ : Where) : Async (Z * list Returned) :=
  fun w =>
    let hit := eval_where where_ in
    let rows := map (fun u => returning (set_isActive b u)) (filter hit (users w)) in
    (Fulfilled (Z.of_nat (length rows), rows),
     {| users := map (fun u => if hit u then set_isActive b u else u) (users w);
        github := github w; clock := clock w |},
     [Call_update b where_]).

Definition GitHub_getOrganizationMembers (token org : string) (role : option string)
  : Async (list Member) :=
  fun w => (getOrganizationMembers_ (github w) token org role, w,
            [Call_getOrganizationMembers token org role]).

Definition GitHub_getTeamMembers (token org team : string) : Async (list Member) :=
  fun w => (getTeamMembers_ (github w) token org team, w,
            [Call_getTeamMembers token org team]).

Definition GitHub_removeOrganizationMember (token org login_ : string) : Async unit :=
  fun w => (removeOrganizationMember_ (github w) token org login_, w,
            [Call_removeOrganizationMember token org login_]).

(** [EventCreator.audit] and [EventCreator.error] record an event; what they
    return is not used by the operations. *)
Definition EventCreator_audit (label : EventLabel) (model : Returned) (isActive_ : bool)
  : Sync unit :=
  emit (Audit_event label model isActive_).

Definition EventCreator_error (label : EventLabel) (error : JsError)
  (login_ action : string) : Sync unit :=
  emit (Error_event label error login_ action).

Definition logger_info (msg : string) : Sync unit := emit (Logger_info msg).

(** [moment()], and [m.clone().subtract(n, 'days').toDate()] for a clock in
    UTC. *)
Definition moment : Sync Z := fun w => (clock w, w, []).

Definition subtract_days (m n : Z) : Z := m - n * 86400000.

(** [p.catch(handler)]: the handler runs when [p] is rejected and its result
    fulfils the new promise. *)
Definition catch {A : Type} (p : Async A) (handler : JsError -> Sync A) : Async A :=
  let! r := p in
  match r with
  | Fulfilled a => resolve a
  | Rejected e => let! a := handler e in resolve a
  end.

(** [x.githubAccessToken] for [x] the result of [User.findOne]: a
    [TypeError] when the result is [null]. *)
Definition get_githubAccessToken (x : option User) : Async string :=
  match x with
  | Some u => resolve (githubAccessToken u)
  | None => throw (TypeError_null "githubAccessToken")
  end.

(** [const { githubAccessToken } = x] for [x] the result of [User.findOne]:
    the [TypeError] of destructuring when the result is [null]. *)
Definition destructure_githubAccessToken (x : option User) : Async string :=
  match x with
  | Some u => resolve (githubAccessToken u)
  | None => throw (TypeError_destructure "githubAccessToken")
  end.

(** [s || d] for a string that may be [undefined]. *)
Definition or_string (s : option string) (d : string) : string :=
  match s with
  | Some s' => if String.eqb s' "" then d else s'
  | None => d
  end.

(** [l || d] for an array that may be [undefined]. *)
Definition or_array {A : Type} (l : option (list A)) (d : list A) : list A :=
  match l with
  | Some l' => l'
  | None => d
  end.

(** ** The operations *)

Section FederalistUsersHelper.

Variable config : Config.

Definition FEDERALIST_ORG : string := orgName config.
Definition MAX_DAYS_SINCE_LOGIN : Z := maxDaysSinceLogin config.

(** The body of the two nested [forEach] loops of [audit18F] for one member. *)
Definition audit18F_member (token : string) (members18F adminFedUsers : list string)
  (member : Member) : Sync (list (Promise unit)) :=
  if (negb (includes members18F (login member))
      && negb (includes adminFedUsers (login member)))%bool
  then
    let! p := GitHub_removeOrganizationMember token FEDERALIST_ORG (login member) in
    logger_info ("federalist-users: removed user " ++ login member)%string ;;
    ret [p]
  else ret [].

Definition audit18F (auditorUsername : option string)
  (fedUserTeams : option (list string)) : Async (list unit) :=
  let auditorUsername := or_string auditorUsername (admin config) in
  let fedUserTeams := or_array fedUserTeams (teams18F config) in
  await auditor := User_findOne [username_eq auditorUsername] in
  await token := get_githubAccessToken auditor in
  await members := GitHub_getOrganizationMembers token "18F" None in
  let members18F := map login members in
  await admins := GitHub_getOrganizationMembers token FEDERALIST_ORG (Some "admin") in
  let adminFedUsers := map login admins in
  let! pending := mapS (fun team => GitHub_getTeamMembers token FEDERALIST_ORG team)
                    fedUserTeams in
  await teams := ret (Promise_all pending) in
  let! removed :=
    (if (0 <? Z.of_nat (length members18F))
     then forEach_push
            (fun team => forEach_push (audit18F_member token members18F adminFedUsers) team)
            teams
     else ret []) in
  ret (Promise_all removed).

Definition federalistUsersAdmins (githubAccessToken_ : string) : Async (list string) :=
  await admins := GitHub_getOrganizationMembers githubAccessToken_ FEDERALIST_ORG
                    (Some "admin") in
  resolve (map login admins).

Definition refreshIsActiveUsers (auditorUsername : option string) : Async unit :=
  let auditorUsername :=
    match auditorUsername with Some s => s | None => admin config end in
  await found := User_findOne [username_eq auditorUsername] in
  await githubAccessToken_ := destructure_githubAccessToken found in
  await members := GitHub_getOrganizationMembers githubAccessToken_ FEDERALIST_ORG None in
  let logins := map (fun m => toLowerCase (login m)) members in
  await updated := User_update true [username_in logins; isActive_eq false] in
  let activeUsers := snd updated in
  let! _ := mapS (fun user => EventCreator_audit UPDATED user (ret_isActive user))
              activeUsers in
  await updated' := User_update false [username_notIn logins; isActive_eq true] in
  let inactiveUsers := snd updated' in
  let! _ := mapS (fun user => EventCreator_audit UPDATED user (ret_isActive user))
              inactiveUsers in
  resolve tt.

Definition removeMember (githubAccessToken_ login_ : string) : Async unit :=
  catch (GitHub_removeOrganizationMember githubAccessToken_ FEDERALIST_ORG login_)
    (fun error => EventCreator_error FEDERALIST_USERS error login_ "removeOrgMember").

Definition revokeMembershipForInactiveUsers (auditorUsername : option string)
  : Async (list unit) :=
  let auditorUsername := or_string auditorUsername (admin config) in
  let! now := moment in
  let cutoff := subtract_days now MAX_DAYS_SINCE_LOGIN in
  await found := User_findOne [username_eq auditorUsername] in
  await githubAccessToken_ := destructure_githubAccessToken found in
  await users_ := User_findAll [isActive_eq true;
                                date_lt signedInAt_attr cutoff;
                                date_lt pushedAt_attr cutoff;
                                date_lt createdAt_attr cutoff] in
  let! pending := mapS (fun user => removeMember githubAccessToken_ user) users_ in
  ret (Promise_all pending).

Definition removeMembersWhoAreNotUsers (auditorUsername : option string)
  : Async (list unit) :=
  let auditorUsername := or_string auditorUsername (admin config) in
  await found := User_findOne [username_eq auditorUsername] in
  await githubAccessToken_ := destructure_githubAccessToken found in
  await allUsernames := User_findAll [] in
  await allMembers := GitHub_getOrganizationMembers githubAccessToken_ (orgName config) None in
  let allMemberLogins := map login allMembers in
  let memberLoginsToRemove :=
    filter (fun login_ => negb (includes allUsernames (toLowerCase login_)))
      allMemberLogins in
  let! pending := mapS (fun login_ => removeMember githubAccessToken_ login_)
                    memberLoginsToRemove in
  ret (Promise_all pending).

End FederalistUsersHelper.

(** ** Reading a trace *)

Definition is_removal (e : Effect) : bool :=
  match e with Call_removeOrganizationMember _ _ _ => true | _ => false end.

Definition is_gateway_call (e : Effect) : bool :=
  match e with
  | Call_getOrganizationMembers _ _ _ | Call_getTeamMembers _ _ _
  | Call_removeOrganizationMember _ _ _ => true
  | _ => false
  end.

Definition is_update (e : Effect) : bool :=
  match e with Call_update _ _ => true | _ => false end.

Definition is_audit (e : Effect) : bool :=
  match e with Audit_event _ _ _ => true | _ => false end.

Definition is_error (e : Effect) : bool :=
  match e with Error_event _ _ _ _ => true | _ => false end.

(** The removal requests of a trace, and the logins they name. *)
Definition removal_requests (t : Trace) : Trace := filter is_removal t.

Definition removed_logins (t : Trace) : list string :=
  flat_map (fun e => match e with
                     | Call_removeOrganizationMember _ _ l => [l]
                     | _ => []
                     end) t.

Definition audit_events (t : Trace) : Trace := filter is_audit t.

Definition error_events (t : Trace) : Trace := filter is_error t.

(** ** Derived notions used in the statements *)

(** The auditor row that [User.findOne({ where: { username } })] finds. *)
Definition findAuditor (w : World) (auditorUsername : string) : option User :=
  find (eval_where [username_eq auditorUsername]) (users w).

(** What [removeMember] records for one login: the request and, when the
    directory rejects it, the failure event. *)
Definition removeMember_trace (config : Config) (w : World) (token login_ : string)
  : Trace :=
  Call_removeOrganizationMember token (orgName config) login_ ::
  match removeOrganizationMember_ (github w) token (orgName config) login_ with
  | Fulfilled _ => []
  | Rejected e => [Error_event FEDERALIST_USERS e login_ "removeOrgMember"]
  end.

(** The cutoff of [revokeMembershipForInactiveUsers] and the rows its
    [findAll] matches. *)
Definition cutoff_of (config : Config) (w : World) : Z :=
  subtract_days (clock w) (maxDaysSinceLogin config).

Definition selectedForRevocation (config : Config) (w : World) : list User :=
  filter (eval_where [isActive_eq true;
                      date_lt signedInAt_attr (cutoff_of config w);
                      date_lt pushedAt_attr (cutoff_of config w);
                      date_lt createdAt_attr (cutoff_of config w)]) (users w).

(** A timestamp strictly before the cutoff ([NULL] is not). *)
Definition before (t : option Z) (cutoff : Z) : Prop :=
  exists x, t = Some x /\ x < cutoff.

(** Staleness in the words of the spec. *)
Definition Stale (cutoff : Z) (u : User) : Prop :=
  isActive u = true /\ before (signedInAt u) cutoff /\
  before (pushedAt u) cutoff /\ before (createdAt u) cutoff.

(** The logins [audit18F] removes, given the reference group, the admins and
    the audited teams. *)
Definition notMember18F (members18F adminFedUsers : list string) (l : string) : bool :=
  (negb (includes members18F l) && negb (includes adminFedUsers l))%bool.

Definition loginsToPrune (members18F adminFedUsers : list string)
  (teams : list (list Member)) : list string :=
  filter (notMember18F members18F adminFedUsers) (map login (concat teams)).

(** The rows of [new] that carry [isActive = b] where the row of [old] at the
    same position carries the opposite value. *)
Definition transitioned (old new : list User) (b : bool) : list User :=
  map snd (filter (fun p => (Bool.eqb (isActive (fst p)) (negb b)
                             && Bool.eqb (isActive (snd p)) b)%bool)
             (combine old new)).

Definition audit_of (u : User) : Effect :=
  Audit_event UPDATED (returning u) (isActive u).

(** Two rows that agree on everything but [isActive]. *)
Definition sameButActive (u u' : User) : Prop :=
  id u' = id u /\ username u' = username u /\
  githubAccessToken u' = githubAccessToken u /\
  signedInAt u' = signedInAt u /\ pushedAt u' = pushedAt u /\
  createdAt u' = createdAt u.

(** The four operations, with their arguments. *)
Inductive Operation : Type :=
| Op_audit18F (auditorUsername : option string) (fedUserTeams : option (list string))
| Op_refreshIsActiveUsers (auditorUsername : option string)
| Op_revokeMembershipForInactiveUsers (auditorUsername : option string)
| Op_removeMembersWhoAreNotUsers (auditorUsername : option string).

Definition forget {A : Type} (p : Promise A) : Promise unit :=
  match p with Fulfilled _ => Fulfilled tt | Rejected e => Rejected e end.

Definition run (config : Config) (op : Operation) (w : World)
  : Promise unit * World * Trace :=
  match op with
  | Op_audit18F a ts =>
      let '(r, w', t) := audit18F config a ts w in (forget r, w', t)
  | Op_refreshIsActiveUsers a => refreshIsActiveUsers config a w
  | Op_revokeMembershipForInactiveUsers a =>
      let '(r, w', t) := revokeMembershipForInactiveUsers config a w in (forget r, w', t)
  | Op_removeMembersWhoAreNotUsers a =>
      let '(r, w', t) := removeMembersWhoAreNotUsers config a w in (forget r, w', t)
  end.

(** The username under which an operation looks its auditor up: [a ||
    config.federalistUsers.admin] in three of them, the default parameter
    of [refreshIsActiveUsers] in the fourth. *)
Definition auditorOf (config : Config) (op : Operation) : string :=
  match op with
  | Op_audit18F a _ => or_string a (admin config)
  | Op_refreshIsActiveUsers a =>
      match a with Some s => s | None => admin config end
  | Op_revokeMembershipForInactiveUsers a => or_string a (admin config)
  | Op_removeMembersWhoAreNotUsers a => or_string a (admin config)
  end.

(** The error an operation is rejected with when [User.findOne] finds no
    auditor: [audit18F] reads [auditor.githubAccessToken], the three others
    destructure the result. *)
Definition missingAuditorError (op : Operation) : JsError :=
  match op with
  | Op_audit18F _ _ => TypeError_null "githubAccessToken"
  | Op_refreshIsActiveUsers _ => TypeError_destructure "githubAccessToken"
  | Op_revokeMembershipForInactiveUsers _ => TypeError_destructure "githubAccessToken"
  | Op_removeMembersWhoAreNotUsers _ => TypeError_destructure "githubAccessToken"
  end.

(** ** Further derived notions and concrete worlds *)

(** The logins [removeMembersWhoAreNotUsers] filters out of the member list. *)
Definition memberLoginsToRemove (allUsernames : list string) (allMembers : list Member)
  : list string :=
  filter (fun login_ => negb (includes allUsernames (toLowerCase login_)))
    (map login allMembers).

(** The row-wise effect of the two bulk updates of [refreshIsActiveUsers]. *)
Definition activate (logins : list string) (u : User) : User :=
  if eval_where [username_in logins; isActive_eq false] u
  then set_isActive true u else u.

Definition deactivate (logins : list string) (u : User) : User :=
  if eval_where [username_notIn logins; isActive_eq true] u
  then set_isActive false u else u.

Definition loginsOf (members : list Member) : list string :=
  map (fun m => toLowerCase (login m)) members.

(** What [audit18F] records for one pruned login. *)
Definition prune_trace (config : Config) (token login_ : string) : Trace :=
  [Call_removeOrganizationMember token (orgName config) login_;
   Logger_info ("federalist-users: removed user " ++ login_)%string].

(** The logins pruned by a run of [audit18F]: none when the reference group
    is empty. *)
Definition pruned (members admins : list Member) (teams : list (list Member))
  : list string :=
  if 0 <? Z.of_nat (length (map login members))
  then loginsToPrune (map login members) (map login admins) teams
  else [].

Definition config0 : Config :=
  {| orgName := "federalist-users"; maxDaysSinceLogin := 90;
     admin := "admin"; teams18F := ["12345"] |}.

Definition day : Z := 86400000.

Definition auditor0 : User :=
  {| id := 1; username := "admin"; githubAccessToken := "secret";
     isActive := true; signedInAt := Some (399 * day); pushedAt := Some (399 * day);
     createdAt := Some 0 |}.

(** A directory that answers every member query with [members], every team
    query with [team], and rejects the removal of the logins in [failing]. *)
Definition directory (reference members admins team : list string)
  (failing : list string) : GitHub :=
  {| getOrganizationMembers_ := fun _ org role =>
       if String.eqb org "18F" then Fulfilled (map mkMember reference)
       else match role with
            | Some _ => Fulfilled (map mkMember admins)
            | None => Fulfilled (map mkMember members)
            end;
     getTeamMembers_ := fun _ _ _ => Fulfilled (map mkMember team);
     removeOrganizationMember_ := fun _ _ l =>
       if includes failing l
       then Rejected {| name := "HttpError"; message := "Forbidden" |}
       else Fulfilled tt |}.

Definition roster_user (i : Z) (n : string) (active : bool) (last : Z) (created : Z)
  : User :=
  {| id := i; username := n; githubAccessToken := ""; isActive := active;
     signedInAt := Some last; pushedAt := Some last; createdAt := Some created |}.

Definition world_orphans : World :=
  {| users := [auditor0; roster_user 2 "jane" true (399 * day) 0];
     github := directory [] ["Jane"; "ghost"] [] [] [];
     clock := 400 * day |}.

(** The roster holds "Jane", the organization holds "jane". *)
Definition world_Jane : World :=
  {| users := [auditor0; roster_user 2 "Jane" true (399 * day) 0];
     github := directory [] ["admin"; "jane"] [] [] [];
     clock := 400 * day |}.

Definition world_empty_reference : World :=
  {| users := [auditor0];
     github := directory [] ["admin"] [] ["mallory"; "trudy"] [];
     clock := 400 * day |}.

(** What one run does to a row. *)
Definition refreshed (logins : list string) (u : User) : User :=
  deactivate logins (activate logins u).

Definition world_refresh : World :=
  {| users := [auditor0; roster_user 2 "jane" false (399 * day) 0;
               roster_user 3 "bob" true (399 * day) 0;
               roster_user 4 "carol" false (399 * day) 0];
     github := directory [] ["admin"; "Jane"] [] [] [];
     clock := 400 * day |}.

Definition world_stale : World :=
  {| users := [auditor0;
               roster_user 2 "alice" true (100 * day) 0;
               roster_user 3 "bob" true (100 * day) 0;
               roster_user 4 "carol" true (100 * day) 0;
               roster_user 5 "dave" true (100 * day) (350 * day);
               roster_user 6 "erin" false (100 * day) 0];
     github := directory [] ["admin"] [] [] ["bob"];
     clock := 400 * day |}.

Definition world_no_auditor : World :=
  {| users := [roster_user 2 "jane" true (399 * day) 0];
     github := directory ["jane"] ["jane"; "mallory"] [] ["mallory"] [];
     clock := 400 * day |}.

Definition world_teams : World :=
  {| users := [auditor0];
     github := directory ["Jane"; "peggy"] ["admin"] ["Boss"]
                 ["jane"; "peggy"; "boss"; "Boss"; "mallory"] ["boss"];
     clock := 400 * day |}.

(** ** More readings of a trace *)

(** The messages passed to [logger.info]. *)
Definition logged (t : Trace) : list string :=
  flat_map (fun e => match e with Logger_info msg => [msg] | _ => [] end) t.

(** The credential a request to the directory is made with. *)
Definition call_token (e : Effect) : option string :=
  match e with
  | Call_getOrganizationMembers token _ _ => Some token
  | Call_getTeamMembers token _ _ => Some token
  | Call_removeOrganizationMember token _ _ => Some token
  | _ => None
  end.

(** The team queries of a trace. *)
Definition team_queries (t : Trace) : list string :=
  flat_map (fun e => match e with Call_getTeamMembers _ _ team => [team] | _ => [] end) t.

(** The failure event [removeMember] emits for a login, if the directory
    rejects its removal. *)
Definition failure_of (config : Config) (w : World) (token login_ : string)
  : list Effect :=
  match removeOrganizationMember_ (github w) token (orgName config) login_ with
  | Fulfilled _ => []
  | Rejected e => [Error_event FEDERALIST_USERS e login_ "removeOrgMember"]
  end.

(** The same roster rows up to [isActive]. *)
Definition sameRows (old new : list User) : Prop :=
  Forall2 sameButActive old new.

(** The ways a run of [audit18F] can go: one per step of its promise chain. *)
Inductive audit18F_outcome (config : Config) (a : option string)
  (ts : option (list string)) (w : World) : Prop :=
| audit18F_no_auditor :
    findAuditor w (or_string a (admin config)) = None ->
    audit18F config a ts w = (Rejected (TypeError_null "githubAccessToken"), w, []) ->
    audit18F_outcome config a ts w
| audit18F_members_rejected (auditor : User) (e : JsError) :
    findAuditor w (or_string a (admin config)) = Some auditor ->
    getOrganizationMembers_ (github w) (githubAccessToken auditor) "18F" None
    = Rejected e ->
    audit18F config a ts w
    = (Rejected e, w, [Call_getOrganizationMembers (githubAccessToken auditor) "18F" None]) ->
    audit18F_outcome config a ts w
| audit18F_admins_rejected (auditor : User) (members : list Member) (e : JsError) :
    findAuditor w (or_string a (admin config)) = Some auditor ->
    getOrganizationMembers_ (github w) (githubAccessToken auditor) "18F" None
    = Fulfilled members ->
    getOrganizationMembers_ (github w) (githubAccessToken auditor) (orgName config)
      (Some "admin") = Rejected e ->
    audit18F config a ts w
    = (Rejected e, w,
       [Call_getOrganizationMembers (githubAccessToken auditor) "18F" None;
        Call_getOrganizationMembers (githubAccessToken auditor) (orgName config)
          (Some "admin")]) ->
    audit18F_outcome config a ts w
| audit18F_teams_rejected (auditor : User) (members admins : list Member) (e : JsError) :
    findAuditor w (or_string a (admin config)) = Some auditor ->
    getOrganizationMembers_ (github w) (githubAccessToken auditor) "18F" None
    = Fulfilled members ->
    getOrganizationMembers_ (github w) (githubAccessToken auditor) (orgName config)
      (Some "admin") = Fulfilled admins ->
    Promise_all (map (getTeamMembers_ (github w) (githubAccessToken auditor)
                        (orgName config)) (or_array ts (teams18F config)))
    = Rejected e ->
    audit18F config a ts w
    = (Rejected e, w,
       Call_getOrganizationMembers (githubAccessToken auditor) "18F" None
       :: Call_getOrganizationMembers (githubAccessToken auditor) (orgName config)
            (Some "admin")
       :: map (Call_getTeamMembers (githubAccessToken auditor) (orgName config))
            (or_array ts (teams18F config))) ->
    audit18F_outcome config a ts w
| audit18F_pruned (auditor : User) (members admins : list Member)
    (teams : list (list Member)) :
    findAuditor w (or_string a (admin config)) = Some auditor ->
    getOrganizationMembers_ (github w) (githubAccessToken auditor) "18F" None
    = Fulfilled members ->
    getOrganizationMembers_ (github w) (githubAccessToken auditor) (orgName config)
      (Some "admin") = Fulfilled admins ->
    Promise_all (map (getTeamMembers_ (github w) (githubAccessToken auditor)
                        (orgName config)) (or_array ts (teams18F config)))
    = Fulfilled teams ->
    audit18F config a ts w
    = (Promise_all (map (removeOrganizationMember_ (github w) (githubAccessToken auditor)
                           (orgName config)) (pruned members admins teams)),
       w,
       Call_getOrganizationMembers (githubAccessToken auditor) "18F" None
       :: Call_getOrganizationMembers (githubAccessToken auditor) (orgName config)
            (Some "admin")
       :: map (Call_getTeamMembers (githubAccessToken auditor) (orgName config))
            (or_array ts (teams18F config))
       ++ flat_map (prune_trace config (githubAccessToken auditor))
            (pruned members admins teams)) ->
    audit18F_outcome config a ts w.

(** ** api/bull-board/config.js *)

(** A credentials object of a bound service: its properties. *)
Definition Creds : Type := list (string * string).

(** [creds.key]: [undefined] when the object has no such property. *)
Fixpoint prop (creds : Creds) (key : string) : option string :=
  match creds with
  | [] => None
  | (k, v) :: creds' => if String.eqb k key then Some v else prop creds' key
  end.

(** [process.env]: the two variables the module reads. *)
Record ProcessEnv : Type := mkEnv {
  NODE_ENV : option string;
  APP_ENV : option string
}.

(** [`${v}`] for an environment variable. *)
Definition interpolate (v : option string) : string :=
  match v with
  | Some s => s
  | None => "undefined"
  end.

Record Postgres : Type := mkPostgres {
  database : option string;
  host : option string;
  user : option string;
  password : option string;
  port : option string
}.

(** [module.exports] of api/bull-board/config.js: the three keys set in
    production, or the API's own configuration. *)
Inductive BullBoardConfig (A : Type) : Type :=
| ProductionConfig (postgres : Postgres) (redis_url : option string)
    (uaa_options : option Creds)
| ApiConfig (apiConfig : A).
Arguments ProductionConfig {A} postgres redis_url uaa_options.
Arguments ApiConfig {A} apiConfig.

(** The completion of a module body. *)
Inductive Completion (A : Type) : Type :=
| Normal (a : A)
| Throw (e : JsError).
Arguments Normal {A} a.
Arguments Throw {A} e.

Definition Error_ (msg : string) : JsError := {| name := "Error"; message := msg |}.

Definition rdsService (env : ProcessEnv) : string :=
  ("federalist-" ++ interpolate (APP_ENV env) ++ "-rds")%string.

Definition redisService (env : ProcessEnv) : string :=
  ("federalist-" ++ interpolate (APP_ENV env) ++ "-redis")%string.

Definition uaaService (env : ProcessEnv) : string :=
  ("app-" ++ interpolate (APP_ENV env) ++ "-uaa-client")%string.

(** The module body, given [process.env], [appEnv.getServiceCreds] ([null]
    for a service that is not bound) and [require('../../config')]. *)
Definition bullBoardConfig {A : Type} (env : ProcessEnv)
  (getServiceCreds : string -> option Creds) (apiConfig : A)
  : Completion (BullBoardConfig A) :=
  match NODE_ENV env with
  | Some mode =>
      if String.eqb mode "production" then
        match getServiceCreds (rdsService env) with
        | Some rdsCreds =>
            let postgres :=
              {| database := prop rdsCreds "db_name";
                 host := prop rdsCreds "host";
                 user := prop rdsCreds "username";
                 password := prop rdsCreds "password";
                 port := prop rdsCreds "port" |} in
            match getServiceCreds (redisService env) with
            | Some redisCreds =>
                let uaaCredentials := getServiceCreds (uaaService env) in
                Normal (ProductionConfig postgres (prop redisCreds "uri") uaaCredentials)
            | None => Throw (Error_ "No Redis credentials found")
            end
        | None => Throw (Error_ "No database credentials found.")
        end
      else Normal (ApiConfig apiConfig)
  | None => Normal (ApiConfig apiConfig)
  end.

(** Bound services for the examples. *)
Definition services0 (name : string) : option Creds :=
  if String.eqb name "federalist-staging-rds"
  then Some [("db_name", "pages"); ("host", "db.internal"); ("username", "u");
             ("password", "p"); ("port", "5432")]
  else if String.eqb name "federalist-staging-redis"
  then Some [("uri", "rediss://queue.internal")]
  else None.

Definition world_two_teams : World :=
  {| users := [auditor0];
     github := {| getOrganizationMembers_ := fun _ org role =>
                    if String.eqb org "18F" then Fulfilled [mkMember "peggy"]
                    else Fulfilled [mkMember "boss"];
                  getTeamMembers_ := fun _ _ team =>
                    if String.eqb team "broken"
                    then Rejected {| name := "HttpError"; message := "Not Found" |}
                    else Fulfilled [mkMember "mallory"; mkMember "peggy"];
                  removeOrganizationMember_ := fun _ _ _ => Fulfilled tt |};
     clock := 400 * day |}.

Definition world_two_failures : World :=
  {| users := users world_stale;
     github := directory [] ["admin"; "Ghost"; "alice"; "zed"] [] [] ["alice"; "carol"; "zed"];
     clock := 400 * day |}.

Definition world_members_down : World :=
  {| users := [auditor0; roster_user 2 "jane" true (399 * day) 0];
     github := {| getOrganizationMembers_ := fun _ _ _ =>
                    Rejected {| name := "HttpError"; message := "Bad Gateway" |};
                  getTeamMembers_ := fun _ _ _ => Fulfilled [];
                  removeOrganizationMember_ := fun _ _ _ => Fulfilled tt |};
     clock := 400 * day |}.

Definition world_refresh_stale : World :=
  {| users := [auditor0;
               roster_user 2 "alice" true (100 * day) 0;
               roster_user 3 "bob" true (100 * day) 0];
     github := directory [] ["admin"; "Alice"] [] [] [];
     clock := 400 * day |}.

Definition made_with (token : string) (e : Effect) : Prop :=
  forall t, call_token e = Some t -> t = token.

(** ** Lemmas on traces, promises and loops *)

Lemma removal_requests_app (t1 t2 : Trace) :
  removal_requests (t1 ++ t2) = removal_requests t1 ++ removal_requests t2.
Proof. apply filter_app. Qed.

Lemma removed_logins_app (t1 t2 : Trace) :
  removed_logins (t1 ++ t2) = removed_logins t1 ++ removed_logins t2.
Proof. apply flat_map_app. Qed.

Lemma Promise_all_fulfilled {A B : Type} (f : A -> B) (l : list A) :
  Promise_all (map (fun x => Fulfilled (f x)) l) = Fulfilled (map f l).
Proof.
  induction l as [|x l IH]; simpl; [reflexivity|].
  now rewrite IH.
Qed.

Lemma Promise_all_rejected {A : Type} (ps : list (Promise A)) (e : JsError) :
  In (Rejected e) ps -> exists e', Promise_all ps = Rejected e'.
Proof.
  induction ps as [|p ps IH]; simpl; [tauto|].
  intros [-> | Hin]; [now exists e|].
  destruct p as [a|e0]; [|now exists e0].
  destruct (IH Hin) as [e' ->]. now exists e'.
Qed.

(** A loop whose body leaves the world alone. *)
Lemma mapS_pure {A B : Type} (f : A -> Sync B) (w : World)
  (g : A -> B) (h : A -> Trace) :
  (forall x, f x w = (g x, w, h x)) ->
  forall l, mapS f l w = (map g l, w, flat_map h l).
Proof.
  intros Hf l. induction l as [|x l IH]; simpl; [reflexivity|].
  unfold bindS. rewrite Hf, IH. unfold ret. now rewrite app_nil_r.
Qed.

Lemma forEach_push_pure {A B : Type} (f : A -> Sync (list B)) (w : World)
  (g : A -> list B) (h : A -> Trace) :
  (forall x, f x w = (g x, w, h x)) ->
  forall l, forEach_push f l w = (flat_map g l, w, flat_map h l).
Proof.
  intros Hf l. induction l as [|x l IH]; simpl; [reflexivity|].
  unfold bindS. rewrite Hf, IH. unfold ret. now rewrite app_nil_r.
Qed.

Lemma includes_In (l : list string) (s : string) :
  includes l s = true <-> In s l.
Proof.
  unfold includes. rewrite existsb_exists. split.
  - intros [x [Hx Heq]]. apply String.eqb_eq in Heq. now subst.
  - intros H. exists s. split; [assumption | apply String.eqb_refl].
Qed.

Lemma includes_not_In (l : list string) (s : string) :
  includes l s = false <-> ~ In s l.
Proof.
  rewrite <- includes_In. destruct (includes l s); split; congruence.
Qed.

(** ** The operations in closed form *)

Lemma filter_all {A : Type} (l : list A) : filter (fun _ => true) l = l.
Proof. induction l as [|x l IH]; simpl; congruence. Qed.

Lemma removeMember_run (config : Config) (w : World) (token login_ : string) :
  removeMember config token login_ w
  = (Fulfilled tt, w, removeMember_trace config w token login_).
Proof.
  unfold removeMember, catch, bindS, GitHub_removeOrganizationMember,
    removeMember_trace, FEDERALIST_ORG.
  destruct (removeOrganizationMember_ (github w) token (orgName config) login_)
    as [[]|e]; reflexivity.
Qed.

Lemma removed_logins_removeMember (config : Config) (w : World) (token : string)
  (ls : list string) :
  removed_logins (flat_map (removeMember_trace config w token) ls) = ls.
Proof.
  induction ls as [|l ls IH]; simpl; [reflexivity|].
  rewrite removed_logins_app, IH.
  destruct (removeOrganizationMember_ (github w) token (orgName config) l);
    reflexivity.
Qed.

Lemma removal_requests_removeMember (config : Config) (w : World) (token : string)
  (ls : list string) :
  removal_requests (flat_map (removeMember_trace config w token) ls)
  = map (Call_removeOrganizationMember token (orgName config)) ls.
Proof.
  induction ls as [|l ls IH]; simpl; [reflexivity|].
  rewrite removal_requests_app, IH.
  destruct (removeOrganizationMember_ (github w) token (orgName config) l);
    reflexivity.
Qed.

Lemma removeMembersWhoAreNotUsers_run (config : Config) (a : option string)
  (w : World) (auditor : User) (allMembers : list Member) :
  findAuditor w (or_string a (admin config)) = Some auditor ->
  getOrganizationMembers_ (github w) (githubAccessToken auditor) (orgName config) None
  = Fulfilled allMembers ->
  let ls := memberLoginsToRemove (map username (users w)) allMembers in
  removeMembersWhoAreNotUsers config a w
  = (Fulfilled (map (fun _ => tt) ls), w,
     Call_getOrganizationMembers (githubAccessToken auditor) (orgName config) None
     :: flat_map (removeMember_trace config w (githubAccessToken auditor)) ls).
Proof.
  intros Hfind Hget ls.
  unfold removeMembersWhoAreNotUsers, bindA, bindS, User_findOne, User_findAll,
    GitHub_getOrganizationMembers.
  unfold findAuditor in Hfind. rewrite Hfind. simpl.
  rewrite Hget. simpl. rewrite filter_all.
  fold (memberLoginsToRemove (map username (users w)) allMembers). fold ls.
  rewrite (mapS_pure _ w (fun _ => Fulfilled tt)
             (removeMember_trace config w (githubAccessToken auditor)))
    by (intro; apply removeMember_run).
  unfold ret. rewrite Promise_all_fulfilled. now rewrite app_nil_r.
Qed.

Lemma revokeMembershipForInactiveUsers_run (config : Config) (a : option string)
  (w : World) (auditor : User) :
  findAuditor w (or_string a (admin config)) = Some auditor ->
  let ls := map username (selectedForRevocation config w) in
  revokeMembershipForInactiveUsers config a w
  = (Fulfilled (map (fun _ => tt) ls), w,
     flat_map (removeMember_trace config w (githubAccessToken auditor)) ls).
Proof.
  intros Hfind ls.
  unfold revokeMembershipForInactiveUsers, bindA, bindS, moment, User_findOne,
    User_findAll.
  unfold findAuditor in Hfind. rewrite Hfind. simpl.
  fold (cutoff_of config w). fold (selectedForRevocation config w). fold ls.
  rewrite (mapS_pure _ w (fun _ => Fulfilled tt)
             (removeMember_trace config w (githubAccessToken auditor)))
    by (intro; apply removeMember_run).
  unfold ret. rewrite Promise_all_fulfilled. now rewrite app_nil_r.
Qed.

Lemma mapS_audit (rows : list Returned) (w : World) :
  mapS (fun user => EventCreator_audit UPDATED user (ret_isActive user)) rows w
  = (map (fun _ => tt) rows, w,
     map (fun user => Audit_event UPDATED user (ret_isActive user)) rows).
Proof.
  rewrite (mapS_pure _ w (fun _ => tt)
             (fun user => [Audit_event UPDATED user (ret_isActive user)]))
    by reflexivity.
  f_equal; induction rows as [|r rows IH]; simpl; congruence.
Qed.

Lemma refreshIsActiveUsers_run (config : Config) (a : option string)
  (w : World) (auditor : User) (members : list Member) :
  findAuditor w (auditorOf config (Op_refreshIsActiveUsers a)) = Some auditor ->
  getOrganizationMembers_ (github w) (githubAccessToken auditor) (orgName config) None
  = Fulfilled members ->
  let logins := loginsOf members in
  let where1 := [username_in logins; isActive_eq false] in
  let where2 := [username_notIn logins; isActive_eq true] in
  let users1 := map (activate logins) (users w) in
  refreshIsActiveUsers config a w
  = (Fulfilled tt,
     {| users := map (deactivate logins) users1; github := github w; clock := clock w |},
     Call_getOrganizationMembers (githubAccessToken auditor) (orgName config) None
     :: Call_update true where1
     :: map (fun u => audit_of (set_isActive true u))
          (filter (eval_where where1) (users w))
     ++ Call_update false where2
     :: map (fun u => audit_of (set_isActive false u))
          (filter (eval_where where2) users1)).
Proof.
  intros Hfind Hget logins where1 where2 users1.
  unfold refreshIsActiveUsers, bindA, bindS, User_findOne,
    GitHub_getOrganizationMembers, FEDERALIST_ORG.
  unfold findAuditor, auditorOf in Hfind. rewrite Hfind. cbn [destructure_githubAccessToken resolve ret].
  rewrite Hget. fold (loginsOf members). fold logins.
  unfold User_update. cbn [snd fst users github clock].
  rewrite !mapS_audit. cbn [resolve ret app].
  rewrite !map_map. rewrite !app_nil_r.
  reflexivity.
Qed.

Lemma audit18F_member_run (config : Config) (w : World) (token : string)
  (members18F adminFedUsers : list string) (member : Member) :
  audit18F_member config token members18F adminFedUsers member w
  = (if notMember18F members18F adminFedUsers (login member)
     then [removeOrganizationMember_ (github w) token (orgName config) (login member)]
     else [],
     w,
     if notMember18F members18F adminFedUsers (login member)
     then prune_trace config token (login member) else []).
Proof.
  unfold audit18F_member, notMember18F.
  destruct (negb (includes members18F (login member))
            && negb (includes adminFedUsers (login member)))%bool; reflexivity.
Qed.

Lemma audit18F_team_run (config : Config) (w : World) (token : string)
  (members18F adminFedUsers : list string) (team : list Member) :
  let ls := filter (notMember18F members18F adminFedUsers) (map login team) in
  forEach_push (audit18F_member config token members18F adminFedUsers) team w
  = (map (removeOrganizationMember_ (github w) token (orgName config)) ls, w,
     flat_map (prune_trace config token) ls).
Proof.
  cbv zeta.
  rewrite (forEach_push_pure _ w _ _ (audit18F_member_run config w token _ _)).
  f_equal; [f_equal|];
    induction team as [|m team IH]; cbn [flat_map map filter]; try reflexivity;
    rewrite IH; destruct (notMember18F members18F adminFedUsers (login m));
    reflexivity.
Qed.

Lemma audit18F_teams_run (config : Config) (w : World) (token : string)
  (members18F adminFedUsers : list string) (teams : list (list Member)) :
  let ls := loginsToPrune members18F adminFedUsers teams in
  forEach_push
    (fun team =>
       forEach_push (audit18F_member config token members18F adminFedUsers) team)
    teams w
  = (map (removeOrganizationMember_ (github w) token (orgName config)) ls, w,
     flat_map (prune_trace config token) ls).
Proof.
  cbv zeta. unfold loginsToPrune.
  induction teams as [|team teams IH]; [reflexivity|].
  cbn [forEach_push concat]. unfold bindS. rewrite audit18F_team_run, IH.
  unfold ret. rewrite map_app, filter_app, map_app, flat_map_app.
  now rewrite app_nil_r.
Qed.

Lemma audit18F_run (config : Config) (a : option string) (ts : option (list string))
  (w : World) (auditor : User) (members admins : list Member)
  (teams : list (list Member)) :
  let token := githubAccessToken auditor in
  let org := orgName config in
  findAuditor w (or_string a (admin config)) = Some auditor ->
  getOrganizationMembers_ (github w) token "18F" None = Fulfilled members ->
  getOrganizationMembers_ (github w) token org (Some "admin") = Fulfilled admins ->
  Promise_all (map (getTeamMembers_ (github w) token org) (or_array ts (teams18F config)))
  = Fulfilled teams ->
  audit18F config a ts w
  = (Promise_all (map (removeOrganizationMember_ (github w) token org)
                    (pruned members admins teams)),
     w,
     Call_getOrganizationMembers token "18F" None
     :: Call_getOrganizationMembers token org (Some "admin")
     :: map (Call_getTeamMembers token org) (or_array ts (teams18F config))
     ++ flat_map (prune_trace config token) (pruned members admins teams)).
Proof.
  intros token org Hfind Hm Ha Ht.
  unfold audit18F, bindA, User_findOne, GitHub_getOrganizationMembers, FEDERALIST_ORG.
  unfold findAuditor in Hfind. rewrite Hfind. cbn [get_githubAccessToken resolve ret].
  fold token. rewrite Hm. fold org. rewrite Ha.
  unfold bindS at 1.
  rewrite (mapS_pure _ w (getTeamMembers_ (github w) token org)
             (fun team => [Call_getTeamMembers token org team]))
    by reflexivity.
  unfold ret at 1. rewrite Ht.
  unfold bindS, pruned.
  destruct (0 <? Z.of_nat (length (map login members))).
  - fold org. unfold org at 1.
    rewrite audit18F_teams_run. unfold ret. cbn [app].
    rewrite !app_nil_r. repeat f_equal;
      induction (or_array ts (teams18F config)); simpl; congruence.
  - unfold ret. cbn [app map flat_map]. rewrite !app_nil_r. repeat f_equal;
      induction (or_array ts (teams18F config)); simpl; congruence.
Qed.

(** ** Remove Members With No Roster Entry *)

Lemma count_occ_filter (p : string -> bool) (l : list string) (x : string) :
  count_occ string_dec (filter p l) x
  = if p x then count_occ string_dec l x else 0%nat.
Proof.
  induction l as [|y l IH]; simpl.
  - now destruct (p x).
  - destruct (p y) eqn:Hy; simpl; destruct (string_dec y x) as [->|Hne];
      rewrite IH; try reflexivity.
    + now rewrite Hy.
    + now rewrite Hy.
Qed.

Lemma filter_none {A : Type} (p : A -> bool) (l : list A) :
  (forall x, In x l -> p x = false) -> filter p l = [].
Proof.
  induction l as [|x l IH]; intros H; simpl; [reflexivity|].
  rewrite (H x) by now left. apply IH. intros y Hy. apply H. now right.
Qed.

(** C1 (amended): with E the organization's member logins and U the roster
    usernames as stored, [removeMembersWhoAreNotUsers] issues as many removal
    requests for a login as E holds occurrences of it when its lower-cased
    form is absent from U and none otherwise (exactly one when E has no
    duplicates), each against the organization with the auditor's token; it
    issues no removal request when the lower-cased form of every login of E
    is in U. *)
Theorem removeMembersWhoAreNotUsers_set_difference
  (config : Config) (a : option string) (w : World) (auditor : User)
  (E : list Member) :
  findAuditor w (or_string a (admin config)) = Some auditor ->
  getOrganizationMembers_ (github w) (githubAccessToken auditor) (orgName config) None
  = Fulfilled E ->
  let U := map username (users w) in
  let t := run_trace (removeMembersWhoAreNotUsers config a w) in
  (forall l, count_occ string_dec (removed_logins t) l
             = if includes U (toLowerCase l) then 0%nat
               else count_occ string_dec (map login E) l)
  /\ (NoDup (map login E) ->
      forall l, In l (map login E) -> ~ In (toLowerCase l) U ->
                count_occ string_dec (removed_logins t) l = 1%nat)
  /\ removal_requests t
     = map (Call_removeOrganizationMember (githubAccessToken auditor) (orgName config))
         (removed_logins t)
  /\ ((forall l, In l (map login E) -> In (toLowerCase l) U) ->
      removal_requests t = []).
Proof.
  intros Hfind Hget U t.
  assert (Hlogins : removed_logins t = memberLoginsToRemove U E).
  { unfold t. rewrite (removeMembersWhoAreNotUsers_run _ _ _ _ _ Hfind Hget).
    unfold run_trace. cbn [snd removed_logins flat_map app].
    apply removed_logins_removeMember. }
  assert (Hreqs : removal_requests t
                  = map (Call_removeOrganizationMember (githubAccessToken auditor)
                           (orgName config)) (memberLoginsToRemove U E)).
  { unfold t. rewrite (removeMembersWhoAreNotUsers_run _ _ _ _ _ Hfind Hget).
    unfold run_trace. cbn [snd removal_requests filter is_removal].
    apply removal_requests_removeMember. }
  assert (Hcount : forall l, count_occ string_dec (removed_logins t) l
             = if includes U (toLowerCase l) then 0%nat
               else count_occ string_dec (map login E) l).
  { intro l. rewrite Hlogins. unfold memberLoginsToRemove.
    rewrite count_occ_filter. now destruct (includes U (toLowerCase l)). }
  repeat split.
  - exact Hcount.
  - intros Hnodup l Hin Hout. rewrite Hcount.
    apply includes_not_In in Hout. rewrite Hout.
    now apply NoDup_count_occ'.
  - now rewrite Hreqs, Hlogins.
  - intros Hall. rewrite Hreqs. unfold memberLoginsToRemove.
    rewrite filter_none; [reflexivity|].
    intros l Hl. apply Hall, includes_In in Hl. now rewrite Hl.
Qed.

Lemma removeMembersWhoAreNotUsers_set_difference_witness :
  let U := map username (users world_orphans) in
  let t := run_trace (removeMembersWhoAreNotUsers config0 None world_orphans) in
  (forall l, count_occ string_dec (removed_logins t) l
             = if includes U (toLowerCase l) then 0%nat
               else count_occ string_dec ["Jane"; "ghost"] l)
  /\ (NoDup ["Jane"; "ghost"] ->
      forall l, In l ["Jane"; "ghost"] -> ~ In (toLowerCase l) U ->
                count_occ string_dec (removed_logins t) l = 1%nat)
  /\ removal_requests t
     = map (Call_removeOrganizationMember "secret" "federalist-users")
         (removed_logins t)
  /\ ((forall l, In l ["Jane"; "ghost"] -> In (toLowerCase l) U) ->
      removal_requests t = []).
Proof.
  exact (removeMembersWhoAreNotUsers_set_difference config0 None world_orphans
           auditor0 [mkMember "Jane"; mkMember "ghost"] eq_refl eq_refl).
Defined.

(** C1 as stated fails: every login of the organization, lower-cased, is in
    the lower-cased roster username set, and yet a removal is requested. *)
Lemma removeMembersWhoAreNotUsers_lowercased_roster_counterexample :
  let E := ["admin"; "jane"] in
  let U := map username (users world_Jane) in
  getOrganizationMembers_ (github world_Jane) "secret" "federalist-users" None
  = Fulfilled (map mkMember E)
  /\ (forall l, In l E -> In (toLowerCase l) (map toLowerCase U))
  /\ removal_requests (run_trace (removeMembersWhoAreNotUsers config0 None world_Jane))
     = [Call_removeOrganizationMember "secret" "federalist-users" "jane"].
Proof.
  cbv zeta. split; [reflexivity|]. split; [|reflexivity].
  intros l [<- | [<- | []]]; simpl; tauto.
Qed.

(** ** Prune Non-Member Team Users *)

Lemma removal_requests_getTeamMembers (token org : string) (teams : list string) :
  removal_requests (map (Call_getTeamMembers token org) teams) = [].
Proof. induction teams as [|x l IH]; simpl; [reflexivity | exact IH]. Qed.

Lemma mapS_getTeamMembers (w : World) (token org : string) (teams : list string) :
  mapS (fun team => GitHub_getTeamMembers token org team) teams w
  = (map (getTeamMembers_ (github w) token org) teams, w,
     map (Call_getTeamMembers token org) teams).
Proof.
  rewrite (mapS_pure _ w (getTeamMembers_ (github w) token org)
             (fun team => [Call_getTeamMembers token org team]))
    by reflexivity.
  f_equal; induction teams as [|x l IH]; simpl; congruence.
Qed.

(** C2: when the directory answers the reference-group query with an empty
    list, a run of [audit18F] issues no removal request, whatever the teams
    hold. *)
Theorem audit18F_empty_reference_group
  (config : Config) (a : option string) (ts : option (list string)) (w : World) :
  (forall token, getOrganizationMembers_ (github w) token "18F" None = Fulfilled []) ->
  removal_requests (run_trace (audit18F config a ts w)) = [].
Proof.
  intros Hempty.
  unfold audit18F, bindA, User_findOne, GitHub_getOrganizationMembers.
  destruct (find _ (users w)) as [auditor|]; [|reflexivity].
  cbn [get_githubAccessToken resolve ret]. rewrite Hempty.
  destruct (getOrganizationMembers_ (github w) (githubAccessToken auditor)
              (FEDERALIST_ORG config) (Some "admin")) as [admins|e];
    [|reflexivity].
  unfold bindS at 1. rewrite mapS_getTeamMembers. unfold ret at 1.
  destruct (Promise_all _) as [teams|e]; unfold run_trace; cbn [snd map length Z.of_nat Z.ltb Z.compare].
  - unfold bindS, ret. cbn [snd app]. rewrite !app_nil_r.
    cbn [removal_requests filter is_removal].
    apply removal_requests_getTeamMembers.
  - cbn [removal_requests filter is_removal app].
    rewrite app_nil_r. apply removal_requests_getTeamMembers.
Qed.

Lemma audit18F_empty_reference_group_witness :
  removal_requests (run_trace (audit18F config0 None None world_empty_reference)) = [].
Proof.
  apply (audit18F_empty_reference_group config0 None None world_empty_reference).
  intro token. reflexivity.
Defined.

(** ** Refresh Activity Status *)

Lemma set_isActive_same (u : User) : set_isActive (isActive u) u = u.
Proof. now destruct u. Qed.

Lemma refreshed_spec (logins : list string) (u : User) :
  refreshed logins u = set_isActive (includes logins (username u)) u.
Proof.
  unfold refreshed, deactivate, activate, eval_where, eval_cond.
  cbn [forallb].
  destruct (includes logins (username u)) eqn:Hin;
    destruct (isActive u) eqn:Hact; cbn;
    rewrite ?Hin, ?Hact; cbn; try reflexivity;
    rewrite <- Hact at 1; try apply set_isActive_same;
    symmetry; apply set_isActive_same.
Qed.

Lemma audit_events_audits (f : User -> User) (l : list User) :
  audit_events (map (fun u => audit_of (f u)) l) = map (fun u => audit_of (f u)) l.
Proof. induction l as [|u l IH]; simpl; [reflexivity|]. now rewrite IH. Qed.

Lemma activated_rows (logins : list string) (old : list User) :
  map (fun u => set_isActive true u)
    (filter (eval_where [username_in logins; isActive_eq false]) old)
  = transitioned old (map (refreshed logins) old) true.
Proof.
  unfold transitioned.
  induction old as [|u old IH]; [reflexivity|].
  cbn [map combine filter fst snd].
  rewrite refreshed_spec. unfold eval_where at 1, eval_cond. cbn [forallb].
  destruct (includes logins (username u)); destruct (isActive u);
    cbn [set_isActive isActive negb Bool.eqb andb map snd];
    first [exact IH | f_equal; exact IH].
Qed.

Lemma deactivated_rows (logins : list string) (old : list User) :
  map (fun u => set_isActive false u)
    (filter (eval_where [username_notIn logins; isActive_eq true])
       (map (activate logins) old))
  = transitioned old (map (refreshed logins) old) false.
Proof.
  unfold transitioned.
  induction old as [|u old IH]; [reflexivity|].
  cbn [map combine filter fst snd].
  rewrite refreshed_spec. unfold activate at 1 2, eval_where at 1 2 3, eval_cond.
  cbn [forallb].
  destruct (includes logins (username u)) eqn:Hin;
    destruct (isActive u) eqn:Hact;
    cbn [set_isActive isActive username negb Bool.eqb andb map snd];
    rewrite ?Hin, ?Hact;
    cbn [set_isActive isActive username negb Bool.eqb andb map snd];
    first [exact IH | f_equal; exact IH].
Qed.

Lemma refreshIsActiveUsers_users (config : Config) (a : option string)
  (w : World) (auditor : User) (members : list Member) :
  findAuditor w (auditorOf config (Op_refreshIsActiveUsers a)) = Some auditor ->
  getOrganizationMembers_ (github w) (githubAccessToken auditor) (orgName config) None
  = Fulfilled members ->
  run_world (refreshIsActiveUsers config a w)
  = {| users := map (refreshed (loginsOf members)) (users w);
       github := github w; clock := clock w |}.
Proof.
  intros Hfind Hget.
  rewrite (refreshIsActiveUsers_run _ _ _ _ _ Hfind Hget).
  unfold run_world. cbn [fst snd]. now rewrite map_map.
Qed.

Lemma refreshIsActiveUsers_audits (config : Config) (a : option string)
  (w : World) (auditor : User) (members : list Member) :
  findAuditor w (auditorOf config (Op_refreshIsActiveUsers a)) = Some auditor ->
  getOrganizationMembers_ (github w) (githubAccessToken auditor) (orgName config) None
  = Fulfilled members ->
  let new := map (refreshed (loginsOf members)) (users w) in
  audit_events (run_trace (refreshIsActiveUsers config a w))
  = map audit_of (transitioned (users w) new true ++ transitioned (users w) new false).
Proof.
  intros Hfind Hget new.
  rewrite (refreshIsActiveUsers_run _ _ _ _ _ Hfind Hget).
  unfold run_trace, audit_events. cbn [snd filter is_audit].
  rewrite filter_app. cbn [filter is_audit].
  fold (audit_events (map (fun u => audit_of (set_isActive true u))
          (filter (eval_where [username_in (loginsOf members); isActive_eq false])
             (users w)))).
  fold (audit_events (map (fun u => audit_of (set_isActive false u))
          (filter (eval_where [username_notIn (loginsOf members); isActive_eq true])
             (map (activate (loginsOf members)) (users w))))).
  rewrite !audit_events_audits.
  rewrite map_app. unfold new.
  rewrite <- activated_rows, <- deactivated_rows, !map_map. reflexivity.
Qed.

(** C3: with L the lower-cased logins of the organization's members, one run
    of [refreshIsActiveUsers] leaves every row as it is but for [isActive],
    sets [isActive] to true exactly on the rows whose username is in L and
    that carry false, sets it to false exactly on the rows whose username is
    not in L and that carry true, and emits one audit event, carrying the
    new value, for each row that changed (the activated rows first). *)
Theorem refreshIsActiveUsers_transitions
  (config : Config) (a : option string) (w : World) (auditor : User)
  (members : list Member) :
  findAuditor w (auditorOf config (Op_refreshIsActiveUsers a)) = Some auditor ->
  getOrganizationMembers_ (github w) (githubAccessToken auditor) (orgName config) None
  = Fulfilled members ->
  let L := map (fun m => toLowerCase (login m)) members in
  let r := refreshIsActiveUsers config a w in
  let old := users w in
  let new := users (run_world r) in
  run_result r = Fulfilled tt
  /\ Forall2 (fun u u' =>
                sameButActive u u'
                /\ (isActive u = false /\ isActive u' = true
                    <-> In (username u) L /\ isActive u = false)
                /\ (isActive u = true /\ isActive u' = false
                    <-> ~ In (username u) L /\ isActive u = true))
       old new
  /\ audit_events (run_trace r)
     = map audit_of (transitioned old new true ++ transitioned old new false).
Proof.
  intros Hfind Hget L r old new.
  assert (Hnew : new = map (refreshed L) old).
  { unfold new, r. now rewrite (refreshIsActiveUsers_users _ _ _ _ _ Hfind Hget). }
  split; [|split].
  - unfold r. now rewrite (refreshIsActiveUsers_run _ _ _ _ _ Hfind Hget).
  - rewrite Hnew. clear. induction old as [|u old IH]; constructor; [|exact IH].
    rewrite refreshed_spec. unfold sameButActive.
    cbn [set_isActive id username githubAccessToken signedInAt pushedAt createdAt isActive].
    split; [tauto|].
    destruct (includes L (username u)) eqn:Hin.
    + apply includes_In in Hin. split; split; intros [H1 H2];
        try (split; trivial); try congruence; tauto.
    + apply includes_not_In in Hin. split; split; intros [H1 H2];
        try (split; trivial); try congruence; tauto.
  - rewrite Hnew. unfold r, old.
    apply (refreshIsActiveUsers_audits _ _ _ _ _ Hfind Hget).
Qed.

Lemma refreshIsActiveUsers_transitions_witness :
  let L := ["admin"; "jane"] in
  let r := refreshIsActiveUsers config0 None world_refresh in
  let old := users world_refresh in
  let new := users (run_world r) in
  run_result r = Fulfilled tt
  /\ Forall2 (fun u u' =>
                sameButActive u u'
                /\ (isActive u = false /\ isActive u' = true
                    <-> In (username u) L /\ isActive u = false)
                /\ (isActive u = true /\ isActive u' = false
                    <-> ~ In (username u) L /\ isActive u = true))
       old new
  /\ audit_events (run_trace r)
     = map audit_of (transitioned old new true ++ transitioned old new false).
Proof.
  exact (refreshIsActiveUsers_transitions config0 None world_refresh auditor0
           [mkMember "admin"; mkMember "Jane"] eq_refl eq_refl).
Defined.

Lemma refreshIsActiveUsers_no_auditor (config : Config) (a : option string) (w : World) :
  findAuditor w (auditorOf config (Op_refreshIsActiveUsers a)) = None ->
  refreshIsActiveUsers config a w
  = (Rejected (TypeError_destructure "githubAccessToken"), w, []).
Proof.
  intros Hfind. unfold refreshIsActiveUsers, bindA, User_findOne.
  unfold findAuditor, auditorOf in Hfind. now rewrite Hfind.
Qed.

Lemma refreshIsActiveUsers_gateway_rejects (config : Config) (a : option string)
  (w : World) (auditor : User) (e : JsError) :
  findAuditor w (auditorOf config (Op_refreshIsActiveUsers a)) = Some auditor ->
  getOrganizationMembers_ (github w) (githubAccessToken auditor) (orgName config) None
  = Rejected e ->
  refreshIsActiveUsers config a w
  = (Rejected e, w,
     [Call_getOrganizationMembers (githubAccessToken auditor) (orgName config) None]).
Proof.
  intros Hfind Hget.
  unfold refreshIsActiveUsers, bindA, User_findOne, GitHub_getOrganizationMembers,
    FEDERALIST_ORG.
  unfold findAuditor, auditorOf in Hfind. rewrite Hfind.
  cbn [destructure_githubAccessToken resolve ret]. now rewrite Hget.
Qed.

Lemma refreshed_idempotent (logins : list string) (u : User) :
  refreshed logins (refreshed logins u) = refreshed logins u.
Proof. now rewrite !refreshed_spec. Qed.

Lemma find_refreshed (logins : list string) (n : string) (l : list User) :
  find (eval_where [username_eq n]) (map (refreshed logins) l)
  = option_map (refreshed logins) (find (eval_where [username_eq n]) l).
Proof.
  induction l as [|u l IH]; [reflexivity|].
  cbn [map find]. rewrite IH.
  replace (eval_where [username_eq n] (refreshed logins u))
    with (eval_where [username_eq n] u)
    by (rewrite refreshed_spec; reflexivity).
  now destruct (eval_where [username_eq n] u).
Qed.

Lemma transitioned_refreshed_twice (logins : list string) (l : list User) (b : bool) :
  transitioned (map (refreshed logins) l)
    (map (refreshed logins) (map (refreshed logins) l)) b = [].
Proof.
  unfold transitioned. induction l as [|u l IH]; [reflexivity|].
  cbn [map combine filter fst snd]. rewrite refreshed_idempotent.
  destruct (isActive (refreshed logins u)), b; cbn; exact IH.
Qed.

(** C4: a second run of [refreshIsActiveUsers] right after a first one,
    against the same directory, changes no row and emits no audit event. *)
Theorem refreshIsActiveUsers_idempotent
  (config : Config) (a : option string) (w : World) :
  let first := refreshIsActiveUsers config a w in
  let second := refreshIsActiveUsers config a (run_world first) in
  users (run_world second) = users (run_world first)
  /\ audit_events (run_trace second) = [].
Proof.
  cbv zeta.
  destruct (findAuditor w (auditorOf config (Op_refreshIsActiveUsers a)))
    as [auditor|] eqn:Hfind.
  2:{ rewrite (refreshIsActiveUsers_no_auditor _ _ _ Hfind).
      unfold run_world at 1 2 4. cbn [fst snd].
      rewrite (refreshIsActiveUsers_no_auditor _ _ _ Hfind). now split. }
  destruct (getOrganizationMembers_ (github w) (githubAccessToken auditor)
              (orgName config) None) as [members|e] eqn:Hget.
  2:{ rewrite (refreshIsActiveUsers_gateway_rejects _ _ _ _ _ Hfind Hget).
      unfold run_world at 1 2 4. cbn [fst snd].
      rewrite (refreshIsActiveUsers_gateway_rejects _ _ _ _ _ Hfind Hget).
      now split. }
  rewrite (refreshIsActiveUsers_users _ _ _ _ _ Hfind Hget).
  set (L := loginsOf members).
  set (w1 := {| users := map (refreshed L) (users w);
                github := github w; clock := clock w |}).
  assert (Hfind1 : findAuditor w1 (auditorOf config (Op_refreshIsActiveUsers a))
                   = Some (refreshed L auditor)).
  { unfold findAuditor, w1. cbn [users]. rewrite find_refreshed.
    unfold findAuditor in Hfind. now rewrite Hfind. }
  assert (Hget1 : getOrganizationMembers_ (github w1)
                    (githubAccessToken (refreshed L auditor)) (orgName config) None
                  = Fulfilled members).
  { rewrite refreshed_spec. exact Hget. }
  split.
  - rewrite (refreshIsActiveUsers_users _ _ _ _ _ Hfind1 Hget1). fold L.
    cbn [users w1]. rewrite map_map.
    apply map_ext. intro u. apply refreshed_idempotent.
  - rewrite (refreshIsActiveUsers_audits _ _ _ _ _ Hfind1 Hget1). fold L.
    cbn [users w1]. now rewrite !transitioned_refreshed_twice.
Qed.

(** ** Revoke Stale Inactive-User Access *)

Lemma error_events_app (t1 t2 : Trace) :
  error_events (t1 ++ t2) = error_events t1 ++ error_events t2.
Proof. apply filter_app. Qed.

(** C5: when three stale rows are selected and the directory rejects the
    removal of the second only, [revokeMembershipForInactiveUsers] requests
    the three removals, emits one failure event, for the second, carrying the
    error, the login and the action name, and is fulfilled. *)
Theorem revokeMembershipForInactiveUsers_partial_failure
  (config : Config) (a : option string) (w : World) (auditor u1 u2 u3 : User)
  (e : JsError) :
  let token := githubAccessToken auditor in
  let org := orgName config in
  findAuditor w (or_string a (admin config)) = Some auditor ->
  selectedForRevocation config w = [u1; u2; u3] ->
  removeOrganizationMember_ (github w) token org (username u1) = Fulfilled tt ->
  removeOrganizationMember_ (github w) token org (username u2) = Rejected e ->
  removeOrganizationMember_ (github w) token org (username u3) = Fulfilled tt ->
  let r := revokeMembershipForInactiveUsers config a w in
  removal_requests (run_trace r)
  = [Call_removeOrganizationMember token org (username u1);
     Call_removeOrganizationMember token org (username u2);
     Call_removeOrganizationMember token org (username u3)]
  /\ error_events (run_trace r)
     = [Error_event FEDERALIST_USERS e (username u2) "removeOrgMember"]
  /\ run_result r = Fulfilled [tt; tt; tt].
Proof.
  intros token org Hfind Hsel H1 H2 H3 r. unfold r.
  rewrite (revokeMembershipForInactiveUsers_run _ _ _ _ Hfind), Hsel.
  unfold run_trace, run_result. cbn [fst snd map flat_map].
  unfold removeMember_trace. fold token. fold org. rewrite H1, H2, H3.
  repeat split.
Qed.

Lemma revokeMembershipForInactiveUsers_partial_failure_witness :
  let r := revokeMembershipForInactiveUsers config0 None world_stale in
  removal_requests (run_trace r)
  = [Call_removeOrganizationMember "secret" "federalist-users" "alice";
     Call_removeOrganizationMember "secret" "federalist-users" "bob";
     Call_removeOrganizationMember "secret" "federalist-users" "carol"]
  /\ error_events (run_trace r)
     = [Error_event FEDERALIST_USERS {| name := "HttpError"; message := "Forbidden" |}
          "bob" "removeOrgMember"]
  /\ run_result r = Fulfilled [tt; tt; tt].
Proof.
  exact (revokeMembershipForInactiveUsers_partial_failure config0 None world_stale
           auditor0
           (roster_user 2 "alice" true (100 * day) 0)
           (roster_user 3 "bob" true (100 * day) 0)
           (roster_user 4 "carol" true (100 * day) 0)
           {| name := "HttpError"; message := "Forbidden" |}
           eq_refl eq_refl eq_refl eq_refl eq_refl).
Defined.

Lemma date_lt_before (a : DateAttr) (d : Z) (u : User) :
  eval_cond (date_lt a d) u = true <-> before (date_of a u) d.
Proof.
  unfold eval_cond, before. destruct (date_of a u) as [t|].
  - rewrite Z.ltb_lt. split.
    + intros H. now exists t.
    + intros [x [Hx Hlt]]. now injection Hx as ->.
  - split; [discriminate | intros [x [Hx _]]; discriminate].
Qed.

Lemma selectedForRevocation_Stale (config : Config) (w : World) (u : User) :
  In u (selectedForRevocation config w)
  <-> In u (users w) /\ Stale (cutoff_of config w) u.
Proof.
  unfold selectedForRevocation, Stale. rewrite filter_In.
  unfold eval_where. cbn [forallb]. rewrite !andb_true_iff, !date_lt_before.
  cbn [eval_cond date_of]. rewrite eqb_true_iff. tauto.
Qed.

(** C8: [revokeMembershipForInactiveUsers] selects exactly the rows with
    [isActive = true] whose [signedInAt], [pushedAt] and [createdAt] are all
    strictly before the cutoff (now minus [maxDaysSinceLogin] days), and
    requests the removal of their usernames; a row with [isActive = true],
    [signedInAt] and [pushedAt] before the cutoff and [createdAt] after it is
    not selected. *)
Theorem revokeMembershipForInactiveUsers_selection
  (config : Config) (a : option string) (w : World) (auditor : User) :
  findAuditor w (or_string a (admin config)) = Some auditor ->
  let cutoff := clock w - maxDaysSinceLogin config * 86400000 in
  let t := run_trace (revokeMembershipForInactiveUsers config a w) in
  (forall u, In u (selectedForRevocation config w)
             <-> In u (users w) /\ Stale cutoff u)
  /\ removed_logins t = map username (selectedForRevocation config w)
  /\ (forall u c, isActive u = true ->
                  before (signedInAt u) cutoff -> before (pushedAt u) cutoff ->
                  createdAt u = Some c -> cutoff < c ->
                  ~ In u (selectedForRevocation config w)).
Proof.
  intros Hfind cutoff t.
  assert (Hsel : forall u, In u (selectedForRevocation config w)
                           <-> In u (users w) /\ Stale cutoff u)
    by (intro u; apply selectedForRevocation_Stale).
  split; [exact Hsel|]. split.
  - unfold t. rewrite (revokeMembershipForInactiveUsers_run _ _ _ _ Hfind).
    unfold run_trace. cbn [snd]. apply removed_logins_removeMember.
  - intros u c _ _ _ Hc Hlt Hin. apply Hsel in Hin.
    destruct Hin as [_ (_ & _ & _ & x & Hx & Hxlt)].
    rewrite Hc in Hx. injection Hx as <-. lia.
Qed.

Lemma revokeMembershipForInactiveUsers_selection_witness :
  removed_logins (run_trace (revokeMembershipForInactiveUsers config0 None world_stale))
  = ["alice"; "bob"; "carol"]
  /\ ~ In (roster_user 5 "dave" true (100 * day) (350 * day))
         (selectedForRevocation config0 world_stale).
Proof.
  destruct (revokeMembershipForInactiveUsers_selection config0 None world_stale
              auditor0 eq_refl) as (_ & Hreq & Hguard).
  split.
  - rewrite Hreq. reflexivity.
  - apply (Hguard _ (350 * day)).
    + reflexivity.
    + exists (100 * day). split; reflexivity.
    + exists (100 * day). split; reflexivity.
    + reflexivity.
    + reflexivity.
Defined.

(** ** A missing auditor *)

Lemma findAuditor_None (w : World) (n : string) :
  (forall u, In u (users w) -> username u <> n) -> findAuditor w n = None.
Proof.
  unfold findAuditor. intros H.
  destruct (find _ (users w)) as [u|] eqn:Hfind; [|reflexivity].
  apply find_some in Hfind. destruct Hfind as [Hin Heq].
  unfold eval_where, eval_cond in Heq. cbn [forallb] in Heq.
  rewrite andb_true_r in Heq. apply String.eqb_eq in Heq.
  now apply H in Hin.
Qed.

(** C6 (amended): when the roster holds no row for the auditor username,
    each of the four operations is rejected with a [TypeError] (that of
    reading [githubAccessToken] off [null] in [audit18F], that of
    destructuring [null] in the three others; there is no NotFoundError),
    before any call to the directory and any update of the roster: the world
    is unchanged and the trace is empty. *)
Theorem missing_auditor_aborts (config : Config) (op : Operation) (w : World) :
  (forall u, In u (users w) -> username u <> auditorOf config op) ->
  let r := run config op w in
  run_result r = Rejected (missingAuditorError op)
  /\ name (missingAuditorError op) = "TypeError"
  /\ run_world r = w
  /\ run_trace r = [].
Proof.
  intros Hnone r. apply findAuditor_None in Hnone.
  unfold findAuditor in Hnone.
  destruct op as [a ts|a|a|a]; unfold r, run, auditorOf in *.
  - unfold audit18F, bindA, User_findOne. rewrite Hnone. repeat split.
  - rewrite (refreshIsActiveUsers_no_auditor _ _ _ Hnone). repeat split.
  - unfold revokeMembershipForInactiveUsers, bindA, bindS, moment, User_findOne.
    rewrite Hnone. repeat split.
  - unfold removeMembersWhoAreNotUsers, bindA, User_findOne.
    rewrite Hnone. repeat split.
Qed.

Lemma missing_auditor_aborts_witness :
  (let r := run config0 (Op_audit18F None None) world_no_auditor in
   run_result r = Rejected (TypeError_null "githubAccessToken")
   /\ name (TypeError_null "githubAccessToken") = "TypeError"
   /\ run_world r = world_no_auditor
   /\ run_trace r = [])
  /\ (let r := run config0 (Op_refreshIsActiveUsers None) world_no_auditor in
   run_result r = Rejected (TypeError_destructure "githubAccessToken")
   /\ name (TypeError_destructure "githubAccessToken") = "TypeError"
   /\ run_world r = world_no_auditor
   /\ run_trace r = [])
  /\ (let r := run config0 (Op_revokeMembershipForInactiveUsers None) world_no_auditor in
   run_result r = Rejected (TypeError_destructure "githubAccessToken")
   /\ name (TypeError_destructure "githubAccessToken") = "TypeError"
   /\ run_world r = world_no_auditor
   /\ run_trace r = [])
  /\ (let r := run config0 (Op_removeMembersWhoAreNotUsers (Some "")) world_no_auditor in
   run_result r = Rejected (TypeError_destructure "githubAccessToken")
   /\ name (TypeError_destructure "githubAccessToken") = "TypeError"
   /\ run_world r = world_no_auditor
   /\ run_trace r = []).
Proof.
  assert (Hnone : forall op, auditorOf config0 op = "admin" ->
            forall u, In u (users world_no_auditor) -> username u <> auditorOf config0 op).
  { intros op Hop u [<- | []]. rewrite Hop. discriminate. }
  exact (conj (missing_auditor_aborts config0 (Op_audit18F None None)
                 world_no_auditor (Hnone (Op_audit18F None None) eq_refl))
        (conj (missing_auditor_aborts config0 (Op_refreshIsActiveUsers None)
                 world_no_auditor (Hnone (Op_refreshIsActiveUsers None) eq_refl))
        (conj (missing_auditor_aborts config0 (Op_revokeMembershipForInactiveUsers None)
                 world_no_auditor (Hnone (Op_revokeMembershipForInactiveUsers None) eq_refl))
              (missing_auditor_aborts config0 (Op_removeMembersWhoAreNotUsers (Some ""))
                 world_no_auditor (Hnone (Op_removeMembersWhoAreNotUsers (Some "")) eq_refl))))).
Defined.

(** C6 as stated fails: with no row for the auditor, the operation is not
    rejected with an error named NotFoundError. *)
Lemma missing_auditor_not_NotFoundError_counterexample :
  (forall u, In u (users world_no_auditor) ->
             username u <> auditorOf config0 (Op_refreshIsActiveUsers None))
  /\ ~ (exists e, run_result (run config0 (Op_refreshIsActiveUsers None) world_no_auditor)
                  = Rejected e
                  /\ name e = "NotFoundError").
Proof.
  split.
  - intros u [<- | []]. discriminate.
  - intros [e [Hr Hname]]. cbn in Hr. injection Hr as <-. discriminate.
Qed.

(** ** Letter case *)

(** C7 (amended): matching lower-cases the external login only. A roster row
    whose stored username is the lower-cased form of an organization member's
    login (such as "jane" for the login "Jane") is active after
    [refreshIsActiveUsers], and [removeMembersWhoAreNotUsers] requests no
    removal of that login. *)
Theorem username_matches_lowercased_login
  (config : Config) (a : option string) (w : World) (auditor : User)
  (members : list Member) (u : User) (m : Member) :
  findAuditor w (auditorOf config (Op_refreshIsActiveUsers a)) = Some auditor ->
  findAuditor w (auditorOf config (Op_removeMembersWhoAreNotUsers a)) = Some auditor ->
  getOrganizationMembers_ (github w) (githubAccessToken auditor) (orgName config) None
  = Fulfilled members ->
  In m members -> In u (users w) -> username u = toLowerCase (login m) ->
  (forall u', In u' (users (run_world (refreshIsActiveUsers config a w))) ->
              username u' = username u -> isActive u' = true)
  /\ ~ In (login m)
         (removed_logins (run_trace (removeMembersWhoAreNotUsers config a w))).
Proof.
  intros Hfind1 Hfind2 Hget Hm Hu Hname. split.
  - rewrite (refreshIsActiveUsers_users _ _ _ _ _ Hfind1 Hget). cbn [users].
    intros u' Hin Heq. apply in_map_iff in Hin. destruct Hin as [v [<- Hv]].
    rewrite refreshed_spec in *. cbn [set_isActive isActive username] in *.
    apply includes_In. rewrite Heq, Hname. unfold loginsOf.
    apply in_map_iff. now exists m.
  - cbn [auditorOf] in Hfind2.
    rewrite (removeMembersWhoAreNotUsers_run _ _ _ _ _ Hfind2 Hget).
    unfold run_trace. cbn [snd removed_logins flat_map app].
    fold (removed_logins (flat_map (removeMember_trace config w
                                      (githubAccessToken auditor))
            (memberLoginsToRemove (map username (users w)) members))).
    rewrite removed_logins_removeMember. unfold memberLoginsToRemove.
    rewrite filter_In. intros [_ Hout].
    apply negb_true_iff, includes_not_In in Hout. apply Hout.
    rewrite <- Hname. now apply in_map.
Qed.

Lemma username_matches_lowercased_login_witness :
  (forall u', In u' (users (run_world (refreshIsActiveUsers config0 None world_refresh))) ->
              username u' = "jane" -> isActive u' = true)
  /\ ~ In "Jane"
         (removed_logins (run_trace (removeMembersWhoAreNotUsers config0 None world_refresh))).
Proof.
  apply (username_matches_lowercased_login config0 None world_refresh auditor0
           [mkMember "admin"; mkMember "Jane"]
           (roster_user 2 "jane" false (399 * day) 0) (mkMember "Jane"));
    try reflexivity.
  - right. left. reflexivity.
  - right. left. reflexivity.
Defined.

(** C7 as stated fails: the roster row "Jane" is active and "jane" is a
    member of the organization, and yet [refreshIsActiveUsers] sets the row
    inactive and [removeMembersWhoAreNotUsers] requests the removal of
    "jane". *)
Lemma username_Jane_login_jane_counterexample :
  let Jane := roster_user 2 "Jane" true (399 * day) 0 in
  In Jane (users world_Jane)
  /\ getOrganizationMembers_ (github world_Jane) "secret" "federalist-users" None
     = Fulfilled [mkMember "admin"; mkMember "jane"]
  /\ users (run_world (refreshIsActiveUsers config0 None world_Jane))
     = [auditor0; set_isActive false Jane]
  /\ removed_logins (run_trace (removeMembersWhoAreNotUsers config0 None world_Jane))
     = ["jane"].
Proof.
  cbv zeta. split; [right; left; reflexivity|].
  split; [reflexivity|]. split; reflexivity.
Qed.

(** ** Failures and letter case in [audit18F] *)

Lemma Promise_all_Forall2 {A B : Type} (f : A -> Promise B) (xs : list A) (ys : list B) :
  Forall2 (fun x y => f x = Fulfilled y) xs ys ->
  Promise_all (map f xs) = Fulfilled ys.
Proof.
  induction 1 as [|x y xs ys Hxy _ IH]; [reflexivity|].
  cbn [map Promise_all]. now rewrite Hxy, IH.
Qed.

Lemma removed_logins_prune (config : Config) (token : string) (ls : list string) :
  removed_logins (flat_map (prune_trace config token) ls) = ls.
Proof. induction ls as [|l ls IH]; simpl; [reflexivity|]. now rewrite IH. Qed.

Lemma removal_requests_prune (config : Config) (token : string) (ls : list string) :
  removal_requests (flat_map (prune_trace config token) ls)
  = map (Call_removeOrganizationMember token (orgName config)) ls.
Proof. induction ls as [|l ls IH]; simpl; [reflexivity|]. now rewrite <- IH. Qed.



Lemma removed_logins_getTeamMembers (token org : string) (teams : list string) :
  removed_logins (map (Call_getTeamMembers token org) teams) = [].
Proof. induction teams as [|x l IH]; simpl; [reflexivity | exact IH]. Qed.

Lemma audit18F_removed_logins (config : Config) (a : option string)
  (ts : option (list string)) (w : World) (auditor : User)
  (members admins : list Member) (teams : list (list Member)) :
  let token := githubAccessToken auditor in
  let org := orgName config in
  findAuditor w (or_string a (admin config)) = Some auditor ->
  getOrganizationMembers_ (github w) token "18F" None = Fulfilled members ->
  getOrganizationMembers_ (github w) token org (Some "admin") = Fulfilled admins ->
  Forall2 (fun team ms => getTeamMembers_ (github w) token org team = Fulfilled ms)
    (or_array ts (teams18F config)) teams ->
  removed_logins (run_trace (audit18F config a ts w)) = pruned members admins teams.
Proof.
  intros token org Hfind Hm Ha Ht. apply Promise_all_Forall2 in Ht.
  rewrite (audit18F_run _ _ _ _ _ _ _ _ Hfind Hm Ha Ht).
  unfold run_trace. cbn [snd removed_logins flat_map app].
  fold (removed_logins
          (map (Call_getTeamMembers token org) (or_array ts (teams18F config))
           ++ flat_map (prune_trace config token) (pruned members admins teams))).
  now rewrite removed_logins_app, removed_logins_getTeamMembers, removed_logins_prune.
Qed.



Lemma In_removal_prune (config : Config) (token token' org l : string)
  (ls : list string) :
  In (Call_removeOrganizationMember token' org l)
    (flat_map (prune_trace config token) ls) ->
  token' = token /\ org = orgName config /\ In l ls.
Proof.
  induction ls as [|x ls IH]; cbn [flat_map prune_trace app In]; [tauto|].
  intros [Heq | [Heq | Hin]].
  - injection Heq as <- <- <-. repeat split. now left.
  - discriminate.
  - destruct (IH Hin) as (H1 & H2 & H3). repeat split; try assumption. now right.
Qed.

Lemma In_removal_getTeamMembers (token token' org org' l : string) (ts : list string) :
  ~ In (Call_removeOrganizationMember token' org' l)
      (map (Call_getTeamMembers token org) ts).
Proof.
  intros Hin. apply in_map_iff in Hin. destruct Hin as [x [Heq _]]. discriminate.
Qed.

Lemma pruned_inv (members admins : list Member) (teams : list (list Member))
  (l : string) :
  In l (pruned members admins teams) ->
  members <> []
  /\ ~ In l (map login members) /\ ~ In l (map login admins)
  /\ exists team, In team teams /\ In l (map login team).
Proof.
  unfold pruned. destruct members as [|r rs]; [intros []|].
  destruct (0 <? _); [|intros []].
  unfold loginsToPrune. rewrite filter_In. intros [Hin Hnm].
  unfold notMember18F in Hnm. apply andb_true_iff in Hnm.
  destruct Hnm as [H1 H2].
  apply negb_true_iff, includes_not_In in H1.
  apply negb_true_iff, includes_not_In in H2.
  repeat split; try assumption; [discriminate|].
  apply in_map_iff in Hin. destruct Hin as [m [<- Hm]].
  apply in_concat in Hm. destruct Hm as [team [Hteam Hm]].
  exists team. split; [assumption | now apply in_map].
Qed.

Lemma pruned_In (members admins : list Member) (teams : list (list Member))
  (team : list Member) (m : Member) :
  members <> [] -> In team teams -> In m team ->
  (forall r, In r members -> login r <> login m) ->
  (forall r, In r admins -> login r <> login m) ->
  In (login m) (pruned members admins teams).
Proof.
  intros Hne Hteam Hm Href Hadm. unfold pruned.
  assert (Hlen : (0 <? Z.of_nat (length (map login members))) = true).
  { destruct members as [|r0 rs]; [congruence|]. apply Z.ltb_lt. cbn [map length]. lia. }
  rewrite Hlen.
  unfold loginsToPrune. apply filter_In. split.
  - apply in_map, in_concat. now exists team.
  - unfold notMember18F. apply andb_true_iff.
    split; apply negb_true_iff, includes_not_In; intros Hin;
      apply in_map_iff in Hin; destruct Hin as [r [Heq Hr]].
    + now apply (Href r).
    + now apply (Hadm r).
Qed.

(** C10: [audit18F] tests membership in the reference group and in the admin
    set on the logins exactly as returned. When the reference group is not
    empty, a member of a fetched team gets a removal request if and only if
    its login is, letter for letter, the login of no reference-group member
    and of no admin: a login that is one of them only up to letter case is
    removed, a login that is one of them exactly is not. *)
Theorem audit18F_case_sensitive
  (config : Config) (a : option string) (ts : option (list string)) (w : World)
  (auditor : User) (members admins : list Member) (teams : list (list Member))
  (team : list Member) (m : Member) :
  let token := githubAccessToken auditor in
  let org := orgName config in
  findAuditor w (or_string a (admin config)) = Some auditor ->
  getOrganizationMembers_ (github w) token "18F" None = Fulfilled members ->
  members <> [] ->
  getOrganizationMembers_ (github w) token org (Some "admin") = Fulfilled admins ->
  Forall2 (fun team ms => getTeamMembers_ (github w) token org team = Fulfilled ms)
    (or_array ts (teams18F config)) teams ->
  In team teams -> In m team ->
  (In (Call_removeOrganizationMember token org (login m))
     (run_trace (audit18F config a ts w))
   <-> (forall r, In r members -> login r <> login m)
       /\ (forall r, In r admins -> login r <> login m)).
Proof.
  intros token org Hfind Hm Hne Ha Ht Hteam Hin.
  apply Promise_all_Forall2 in Ht.
  rewrite (audit18F_run _ _ _ _ _ _ _ _ Hfind Hm Ha Ht).
  unfold run_trace. cbn [snd]. fold token. fold org.
  split.
  - intros [Heq | [Heq | Hreq]]; try discriminate.
    apply in_app_or in Hreq. destruct Hreq as [Hreq | Hreq].
    { now apply In_removal_getTeamMembers in Hreq. }
    apply In_removal_prune in Hreq. destruct Hreq as (_ & _ & Hl).
    apply pruned_inv in Hl. destruct Hl as (_ & Href & Hadm & _).
    split; intros r Hr Heq.
    + apply Href. rewrite <- Heq. now apply in_map.
    + apply Hadm. rewrite <- Heq. now apply in_map.
  - intros [Href Hadm].
    pose proof (pruned_In _ _ _ _ _ Hne Hteam Hin Href Hadm) as Hpruned.
    right. right. apply in_or_app. right.
    apply in_flat_map. exists (login m). split; [exact Hpruned|].
    left. reflexivity.
Qed.

(** The reference group holds "Jane" and "peggy", the admins hold "Boss":
    the team members "jane" and "boss" are removed, "peggy" and "Boss" are
    not. *)
Lemma audit18F_case_sensitive_witness :
  let t := run_trace (audit18F config0 None None world_teams) in
  toLowerCase "Jane" = toLowerCase "jane"
  /\ In (Call_removeOrganizationMember "secret" "federalist-users" "jane") t
  /\ In (Call_removeOrganizationMember "secret" "federalist-users" "boss") t
  /\ ~ In (Call_removeOrganizationMember "secret" "federalist-users" "peggy") t
  /\ ~ In (Call_removeOrganizationMember "secret" "federalist-users" "Boss") t.
Proof.
  pose (team := [mkMember "jane"; mkMember "peggy"; mkMember "boss"; mkMember "Boss";
                 mkMember "mallory"]).
  assert (Hne : [mkMember "Jane"; mkMember "peggy"] <> []) by discriminate.
  assert (Hteams : Forall2
            (fun name ms => getTeamMembers_ (github world_teams) "secret"
                              "federalist-users" name = Fulfilled ms)
            ["12345"] [team]) by repeat constructor.
  pose proof (fun m Hin =>
                audit18F_case_sensitive config0 None None world_teams auditor0
                  [mkMember "Jane"; mkMember "peggy"] [mkMember "Boss"] [team] team m
                  eq_refl eq_refl Hne eq_refl Hteams (or_introl eq_refl) Hin) as H.
  cbv zeta. split; [reflexivity|]. split; [|split; [|split]].
  - apply (H (mkMember "jane")); [left; reflexivity|].
    split; [intros r [<- | [<- | []]] | intros r [<- | []]]; discriminate.
  - apply (H (mkMember "boss")); [right; right; left; reflexivity|].
    split; [intros r [<- | [<- | []]] | intros r [<- | []]]; discriminate.
  - intros Hreq. apply (H (mkMember "peggy")) in Hreq; [|right; left; reflexivity].
    destruct Hreq as [Href _].
    apply (Href (mkMember "peggy")); [right; left; reflexivity | reflexivity].
  - intros Hreq.
    apply (H (mkMember "Boss")) in Hreq; [|right; right; right; left; reflexivity].
    destruct Hreq as [_ Hadm].
    apply (Hadm (mkMember "Boss")); [left; reflexivity | reflexivity].
Defined.

(** ** Every run of [audit18F] *)

Lemma audit18F_cases (config : Config) (a : option string)
  (ts : option (list string)) (w : World) :
  audit18F_outcome config a ts w.
Proof.
  destruct (findAuditor w (or_string a (admin config))) as [auditor|] eqn:Hfind.
  2:{ apply audit18F_no_auditor; [assumption|].
      unfold audit18F, bindA, User_findOne. unfold findAuditor in Hfind.
      now rewrite Hfind. }
  destruct (getOrganizationMembers_ (github w) (githubAccessToken auditor) "18F" None)
    as [members|e] eqn:Hm.
  2:{ apply (audit18F_members_rejected _ _ _ _ auditor e); try assumption.
      unfold audit18F, bindA, User_findOne, GitHub_getOrganizationMembers.
      unfold findAuditor in Hfind. rewrite Hfind.
      cbn [get_githubAccessToken resolve ret]. now rewrite Hm. }
  destruct (getOrganizationMembers_ (github w) (githubAccessToken auditor)
              (orgName config) (Some "admin")) as [admins|e] eqn:Ha.
  2:{ apply (audit18F_admins_rejected _ _ _ _ auditor members e); try assumption.
      unfold audit18F, bindA, User_findOne, GitHub_getOrganizationMembers,
        FEDERALIST_ORG.
      unfold findAuditor in Hfind. rewrite Hfind.
      cbn [get_githubAccessToken resolve ret]. now rewrite Hm, Ha. }
  destruct (Promise_all (map (getTeamMembers_ (github w) (githubAccessToken auditor)
                                (orgName config)) (or_array ts (teams18F config))))
    as [teams|e] eqn:Ht.
  - apply (audit18F_pruned _ _ _ _ auditor members admins teams); try assumption.
    now apply audit18F_run.
  - apply (audit18F_teams_rejected _ _ _ _ auditor members admins e); try assumption.
    unfold audit18F, bindA, User_findOne, GitHub_getOrganizationMembers,
      FEDERALIST_ORG.
    unfold findAuditor in Hfind. rewrite Hfind.
    cbn [get_githubAccessToken resolve ret]. rewrite Hm, Ha.
    unfold bindS at 1. rewrite mapS_getTeamMembers. unfold ret at 1.
    rewrite Ht. cbn [app]. now rewrite app_nil_r.
Qed.

Lemma Promise_all_In {A B : Type} (f : A -> Promise B) (xs : list A) (ys : list B) :
  Promise_all (map f xs) = Fulfilled ys ->
  Forall2 (fun x y => f x = Fulfilled y) xs ys.
Proof.
  revert ys. induction xs as [|x xs IH]; intros ys H; cbn [map Promise_all] in H.
  - injection H as <-. constructor.
  - destruct (f x) as [y|e] eqn:Hx; [|discriminate].
    destruct (Promise_all (map f xs)) as [l|e]; [|discriminate].
    injection H as <-. constructor; [assumption | now apply IH].
Qed.

(** X1: every removal request of [audit18F] is made with the auditor's
    token against the configured organization, for a login that a fetched
    team holds and that is neither in the (non-empty) reference group nor
    among the admins the directory returned. *)
Theorem audit18F_removal_justified
  (config : Config) (a : option string) (ts : option (list string)) (w : World)
  (token org l : string) :
  In (Call_removeOrganizationMember token org l) (run_trace (audit18F config a ts w)) ->
  exists auditor members admins,
    findAuditor w (or_string a (admin config)) = Some auditor
    /\ token = githubAccessToken auditor /\ org = orgName config
    /\ getOrganizationMembers_ (github w) token "18F" None = Fulfilled members
    /\ getOrganizationMembers_ (github w) token org (Some "admin") = Fulfilled admins
    /\ members <> []
    /\ ~ In l (map login members) /\ ~ In l (map login admins)
    /\ exists team ms,
         In team (or_array ts (teams18F config))
         /\ getTeamMembers_ (github w) token org team = Fulfilled ms
         /\ In l (map login ms).
Proof.
  intros Hin.
  destruct (audit18F_cases config a ts w)
    as [Hf Hrun | auditor e Hf Hm Hrun | auditor members e Hf Hm Ha Hrun
        | auditor members admins e Hf Hm Ha Ht Hrun
        | auditor members admins teams Hf Hm Ha Ht Hrun];
    rewrite Hrun in Hin; unfold run_trace in Hin; cbn [snd] in Hin.
  - destruct Hin.
  - destruct Hin as [Heq | []]. discriminate.
  - destruct Hin as [Heq | [Heq | []]]; discriminate.
  - destruct Hin as [Heq | [Heq | Hin]]; try discriminate.
    now apply In_removal_getTeamMembers in Hin.
  - destruct Hin as [Heq | [Heq | Hin]]; try discriminate.
    apply in_app_or in Hin. destruct Hin as [Hin | Hin].
    { now apply In_removal_getTeamMembers in Hin. }
    apply In_removal_prune in Hin. destruct Hin as (-> & -> & Hl).
    apply pruned_inv in Hl. destruct Hl as (Hne & Hr & Had & team & Hteam & Hlt).
    exists auditor, members, admins. repeat split; try assumption.
    apply Promise_all_In in Ht.
    clear - Ht Hteam Hlt. induction Ht as [|n ms ns mss Hn _ IH]; [destruct Hteam|].
    destruct Hteam as [<- | Hteam].
    + exists n, ms. repeat split; [now left | assumption | assumption].
    + destruct (IH Hteam) as (n' & ms' & H1 & H2 & H3).
      exists n', ms'. repeat split; [now right | assumption | assumption].
Qed.

Lemma audit18F_removal_justified_witness :
  exists auditor members admins,
    findAuditor world_teams (or_string None (admin config0)) = Some auditor
    /\ "secret" = githubAccessToken auditor /\ "federalist-users" = orgName config0
    /\ getOrganizationMembers_ (github world_teams) "secret" "18F" None
       = Fulfilled members
    /\ getOrganizationMembers_ (github world_teams) "secret" "federalist-users"
         (Some "admin") = Fulfilled admins
    /\ members <> []
    /\ ~ In "mallory" (map login members) /\ ~ In "mallory" (map login admins)
    /\ exists team ms,
         In team (or_array None (teams18F config0))
         /\ getTeamMembers_ (github world_teams) "secret" "federalist-users" team
            = Fulfilled ms
         /\ In "mallory" (map login ms).
Proof.
  apply (audit18F_removal_justified config0 None None world_teams
           "secret" "federalist-users" "mallory").
  cbn. tauto.
Defined.

Lemma team_queries_getTeamMembers (token org : string) (ts : list string) :
  team_queries (map (Call_getTeamMembers token org) ts) = ts.
Proof. induction ts as [|x l IH]; simpl; [reflexivity|]. now rewrite IH. Qed.

(** X2: when the auditor and both member lists are there and the query of
    one audited team is rejected, [audit18F] has still queried every team, in
    order, requests no removal and is rejected. *)
Theorem audit18F_team_query_rejected
  (config : Config) (a : option string) (ts : option (list string)) (w : World)
  (auditor : User) (members admins : list Member) (team : string) (e : JsError) :
  let token := githubAccessToken auditor in
  let org := orgName config in
  findAuditor w (or_string a (admin config)) = Some auditor ->
  getOrganizationMembers_ (github w) token "18F" None = Fulfilled members ->
  getOrganizationMembers_ (github w) token org (Some "admin") = Fulfilled admins ->
  In team (or_array ts (teams18F config)) ->
  getTeamMembers_ (github w) token org team = Rejected e ->
  let r := audit18F config a ts w in
  (exists e', run_result r = Rejected e')
  /\ team_queries (run_trace r) = or_array ts (teams18F config)
  /\ removal_requests (run_trace r) = []
  /\ run_world r = w.
Proof.
  intros token org Hfind Hm Ha Hteam Hrej r.
  assert (Hall : exists e', Promise_all (map (getTeamMembers_ (github w) token org)
                                           (or_array ts (teams18F config)))
                            = Rejected e').
  { apply (Promise_all_rejected _ e). rewrite <- Hrej. now apply in_map. }
  destruct Hall as [e' Hall].
  destruct (audit18F_cases config a ts w)
    as [Hf Hrun | au e0 Hf Hm0 Hrun | au ms e0 Hf Hm0 Ha0 Hrun
        | au ms ad e0 Hf Hm0 Ha0 Ht Hrun
        | au ms ad tms Hf Hm0 Ha0 Ht Hrun];
    subst token org; try congruence;
    rewrite Hfind in Hf; injection Hf as <-; try congruence.
  unfold r. rewrite Hrun. unfold run_result, run_trace, run_world. cbn [fst snd].
  split; [now exists e0|]. split; [|split; [|reflexivity]].
  - cbn [team_queries flat_map app]. apply team_queries_getTeamMembers.
  - cbn [removal_requests filter is_removal]. apply removal_requests_getTeamMembers.
Qed.

Lemma audit18F_team_query_rejected_witness :
  let r := audit18F config0 None (Some ["12345"; "broken"; "67890"]) world_two_teams in
  (exists e', run_result r = Rejected e')
  /\ team_queries (run_trace r) = ["12345"; "broken"; "67890"]
  /\ removal_requests (run_trace r) = []
  /\ run_world r = world_two_teams.
Proof.
  apply (audit18F_team_query_rejected config0 None (Some ["12345"; "broken"; "67890"])
           world_two_teams auditor0 [mkMember "peggy"] [mkMember "boss"] "broken"
           {| name := "HttpError"; message := "Not Found" |}); try reflexivity.
  right. left. reflexivity.
Defined.

Lemma Promise_all_all_fulfilled {A : Type} (f : A -> Promise unit) (l : list A) :
  (forall x, In x l -> f x = Fulfilled tt) ->
  Promise_all (map f l) = Fulfilled (map (fun _ => tt) l).
Proof.
  induction l as [|x l IH]; intros H; [reflexivity|].
  cbn [map Promise_all]. rewrite (H x) by now left.
  rewrite IH; [reflexivity|]. intros y Hy. apply H. now right.
Qed.

(** X3: when the reads succeed and the directory accepts every removal,
    [audit18F] is fulfilled with one value per removal request; the logins
    requested are none when the reference group is empty, and otherwise the
    entries of the team lists that are neither in the reference group nor
    among the admins, in order. *)
Theorem audit18F_fulfilled
  (config : Config) (a : option string) (ts : option (list string)) (w : World)
  (auditor : User) (members admins : list Member) (teams : list (list Member)) :
  let token := githubAccessToken auditor in
  let org := orgName config in
  findAuditor w (or_string a (admin config)) = Some auditor ->
  getOrganizationMembers_ (github w) token "18F" None = Fulfilled members ->
  getOrganizationMembers_ (github w) token org (Some "admin") = Fulfilled admins ->
  Forall2 (fun team ms => getTeamMembers_ (github w) token org team = Fulfilled ms)
    (or_array ts (teams18F config)) teams ->
  (forall l, In l (pruned members admins teams) ->
             removeOrganizationMember_ (github w) token org l = Fulfilled tt) ->
  let r := audit18F config a ts w in
  run_result r = Fulfilled (map (fun _ => tt) (removal_requests (run_trace r)))
  /\ removed_logins (run_trace r)
     = match members with
       | [] => []
       | _ :: _ =>
           filter (fun l => (negb (includes (map login members) l)
                             && negb (includes (map login admins) l))%bool)
             (map login (concat teams))
       end.
Proof.
  intros token org Hfind Hm Ha Ht Hok r.
  pose proof (audit18F_removed_logins _ _ _ _ _ _ _ _ Hfind Hm Ha Ht) as Hlogins.
  pose proof (Promise_all_Forall2 _ _ _ Ht) as Hall.
  split.
  - unfold r. rewrite (audit18F_run _ _ _ _ _ _ _ _ Hfind Hm Ha Hall).
    unfold run_result, run_trace. cbn [fst snd]. fold token. fold org.
    rewrite (Promise_all_all_fulfilled _ _ Hok).
    cbn [removal_requests filter is_removal].
    fold (removal_requests
            (map (Call_getTeamMembers token org) (or_array ts (teams18F config))
             ++ flat_map (prune_trace config token) (pruned members admins teams))).
    rewrite removal_requests_app, removal_requests_getTeamMembers,
      removal_requests_prune. cbn [app]. now rewrite map_map.
  - unfold r. rewrite Hlogins. unfold pruned, loginsToPrune, notMember18F.
    destruct members as [|m0 ms]; [reflexivity|].
    replace (0 <? Z.of_nat (length (map login (m0 :: ms)))) with true; [reflexivity|].
    symmetry. apply Z.ltb_lt. cbn [map length]. lia.
Qed.

Lemma audit18F_fulfilled_witness :
  (let r := audit18F config0 None (Some ["12345"; "67890"]) world_two_teams in
   run_result r = Fulfilled (map (fun _ => tt) (removal_requests (run_trace r)))
   /\ removed_logins (run_trace r) = ["mallory"; "mallory"])
  /\ (let r := audit18F config0 None None world_empty_reference in
      run_result r = Fulfilled (map (fun _ => tt) (removal_requests (run_trace r)))
      /\ removed_logins (run_trace r) = []).
Proof.
  split.
  - apply (audit18F_fulfilled config0 None (Some ["12345"; "67890"]) world_two_teams
             auditor0 [mkMember "peggy"] [mkMember "boss"]
             [[mkMember "mallory"; mkMember "peggy"];
              [mkMember "mallory"; mkMember "peggy"]]); try reflexivity.
    repeat constructor.
  - apply (audit18F_fulfilled config0 None None world_empty_reference
             auditor0 [] [] [[mkMember "mallory"; mkMember "trudy"]]);
      try reflexivity.
    repeat constructor.
Defined.

(** X4: with a non-empty reference group, [audit18F] requests the removal of
    a login once per audited team list that holds it (it does not merge the
    teams), and not at all when the login is in the reference group or among
    the admins. *)
Theorem audit18F_one_request_per_team_entry
  (config : Config) (a : option string) (ts : option (list string)) (w : World)
  (auditor : User) (members admins : list Member) (teams : list (list Member))
  (l : string) :
  let token := githubAccessToken auditor in
  let org := orgName config in
  findAuditor w (or_string a (admin config)) = Some auditor ->
  getOrganizationMembers_ (github w) token "18F" None = Fulfilled members ->
  members <> [] ->
  getOrganizationMembers_ (github w) token org (Some "admin") = Fulfilled admins ->
  Forall2 (fun team ms => getTeamMembers_ (github w) token org team = Fulfilled ms)
    (or_array ts (teams18F config)) teams ->
  count_occ string_dec (removed_logins (run_trace (audit18F config a ts w))) l
  = if (includes (map login members) l || includes (map login admins) l)%bool
    then 0%nat
    else count_occ string_dec (map login (concat teams)) l.
Proof.
  intros token org Hfind Hm Hne Ha Ht.
  rewrite (audit18F_removed_logins _ _ _ _ _ _ _ _ Hfind Hm Ha Ht).
  unfold pruned.
  assert (Hlen : (0 <? Z.of_nat (length (map login members))) = true).
  { destruct members as [|r0 rs]; [congruence|]. apply Z.ltb_lt. cbn [map length]. lia. }
  rewrite Hlen. unfold loginsToPrune. rewrite count_occ_filter.
  unfold notMember18F.
  destruct (includes (map login members) l), (includes (map login admins) l);
    reflexivity.
Qed.

Lemma audit18F_one_request_per_team_entry_witness :
  count_occ string_dec
    (removed_logins (run_trace (audit18F config0 None (Some ["12345"; "67890"])
                                  world_two_teams))) "mallory"
  = 2%nat.
Proof.
  apply (audit18F_one_request_per_team_entry config0 None (Some ["12345"; "67890"])
           world_two_teams auditor0 [mkMember "peggy"] [mkMember "boss"]
           [[mkMember "mallory"; mkMember "peggy"];
            [mkMember "mallory"; mkMember "peggy"]] "mallory"); try reflexivity.
  - discriminate.
  - repeat constructor.
Defined.

Lemma logged_prune (config : Config) (token : string) (ls : list string) :
  logged (flat_map (prune_trace config token) ls)
  = map (fun l => ("federalist-users: removed user " ++ l)%string) ls.
Proof.
  induction ls as [|l ls IH]; [reflexivity|].
  cbn [flat_map prune_trace app map]. cbn [logged flat_map app].
  f_equal. exact IH.
Qed.

Lemma logged_getTeamMembers (token org : string) (ts : list string) :
  logged (map (Call_getTeamMembers token org) ts) = [].
Proof. induction ts as [|x l IH]; simpl; [reflexivity | exact IH]. Qed.

(** X5: in every run of [audit18F] the logger gets one "removed user" line
    per removal request, in the order of the requests and naming their
    logins, whether or not the directory accepts the removals. *)
Theorem audit18F_logs_every_request
  (config : Config) (a : option string) (ts : option (list string)) (w : World) :
  let t := run_trace (audit18F config a ts w) in
  logged t
  = map (fun l => ("federalist-users: removed user " ++ l)%string) (removed_logins t).
Proof.
  cbv zeta.
  destruct (audit18F_cases config a ts w)
    as [Hf Hrun | au e0 Hf Hm0 Hrun | au ms e0 Hf Hm0 Ha0 Hrun
        | au ms ad e0 Hf Hm0 Ha0 Ht Hrun
        | au ms ad tms Hf Hm0 Ha0 Ht Hrun];
    rewrite Hrun; unfold run_trace; cbn [snd]; try reflexivity.
  - cbn [logged removed_logins flat_map app].
    fold (logged (map (Call_getTeamMembers (githubAccessToken au) (orgName config))
                    (or_array ts (teams18F config)))).
    fold (removed_logins
            (map (Call_getTeamMembers (githubAccessToken au) (orgName config))
               (or_array ts (teams18F config)))).
    now rewrite logged_getTeamMembers, removed_logins_getTeamMembers.
  - cbn [logged removed_logins flat_map app].
    fold (logged (map (Call_getTeamMembers (githubAccessToken au) (orgName config))
                    (or_array ts (teams18F config))
                  ++ flat_map (prune_trace config (githubAccessToken au))
                       (pruned ms ad tms))).
    fold (removed_logins
            (map (Call_getTeamMembers (githubAccessToken au) (orgName config))
               (or_array ts (teams18F config))
             ++ flat_map (prune_trace config (githubAccessToken au))
                  (pruned ms ad tms))).
    unfold logged at 1. rewrite flat_map_app. fold (logged
      (map (Call_getTeamMembers (githubAccessToken au) (orgName config))
         (or_array ts (teams18F config)))).
    fold (logged (flat_map (prune_trace config (githubAccessToken au))
                    (pruned ms ad tms))).
    rewrite removed_logins_app, logged_getTeamMembers, removed_logins_getTeamMembers,
      logged_prune, removed_logins_prune. reflexivity.
Qed.

(** ** What the operations leave alone *)

Lemma revokeMembershipForInactiveUsers_no_auditor (config : Config)
  (a : option string) (w : World) :
  findAuditor w (or_string a (admin config)) = None ->
  revokeMembershipForInactiveUsers config a w
  = (Rejected (TypeError_destructure "githubAccessToken"), w, []).
Proof.
  intros Hfind.
  unfold revokeMembershipForInactiveUsers, bindA, bindS, moment, User_findOne.
  unfold findAuditor in Hfind. now rewrite Hfind.
Qed.

Lemma removeMembersWhoAreNotUsers_no_auditor (config : Config)
  (a : option string) (w : World) :
  findAuditor w (or_string a (admin config)) = None ->
  removeMembersWhoAreNotUsers config a w
  = (Rejected (TypeError_destructure "githubAccessToken"), w, []).
Proof.
  intros Hfind. unfold removeMembersWhoAreNotUsers, bindA, User_findOne.
  unfold findAuditor in Hfind. now rewrite Hfind.
Qed.

Lemma removeMembersWhoAreNotUsers_gateway_rejects (config : Config)
  (a : option string) (w : World) (auditor : User) (e : JsError) :
  findAuditor w (or_string a (admin config)) = Some auditor ->
  getOrganizationMembers_ (github w) (githubAccessToken auditor) (orgName config) None
  = Rejected e ->
  removeMembersWhoAreNotUsers config a w
  = (Rejected e, w,
     [Call_getOrganizationMembers (githubAccessToken auditor) (orgName config) None]).
Proof.
  intros Hfind Hget.
  unfold removeMembersWhoAreNotUsers, bindA, User_findOne, User_findAll,
    GitHub_getOrganizationMembers.
  unfold findAuditor in Hfind. rewrite Hfind.
  cbn [destructure_githubAccessToken resolve ret]. now rewrite Hget.
Qed.

Lemma no_updates_removeMember (config : Config) (w : World) (token : string)
  (ls : list string) :
  filter is_update (flat_map (removeMember_trace config w token) ls) = []
  /\ audit_events (flat_map (removeMember_trace config w token) ls) = [].
Proof.
  induction ls as [|l ls [IH1 IH2]]; [now split|].
  cbn [flat_map]. unfold audit_events in *. rewrite !filter_app, IH1, IH2.
  unfold removeMember_trace.
  destruct (removeOrganizationMember_ (github w) token (orgName config) l);
    now split.
Qed.

Lemma no_updates_prune (config : Config) (token : string) (ls : list string) :
  filter is_update (flat_map (prune_trace config token) ls) = []
  /\ audit_events (flat_map (prune_trace config token) ls) = [].
Proof.
  induction ls as [|l ls [IH1 IH2]]; [now split|].
  cbn [flat_map prune_trace app]. unfold audit_events in *.
  cbn [filter is_update is_audit]. now split.
Qed.

Lemma no_updates_getTeamMembers (token org : string) (ts : list string) :
  filter is_update (map (Call_getTeamMembers token org) ts) = []
  /\ audit_events (map (Call_getTeamMembers token org) ts) = [].
Proof.
  induction ts as [|x l [IH1 IH2]]; [now split|].
  unfold audit_events in *. cbn [map filter is_update is_audit]. now split.
Qed.

(** X6: [audit18F], [revokeMembershipForInactiveUsers] and
    [removeMembersWhoAreNotUsers] never write to the roster: in every run,
    however it ends, the world is left as it was, no update is issued and no
    audit event is emitted. *)
Theorem removal_operations_leave_roster (config : Config) (op : Operation) (w : World) :
  (forall a, op <> Op_refreshIsActiveUsers a) ->
  let r := run config op w in
  run_world r = w
  /\ filter is_update (run_trace r) = []
  /\ audit_events (run_trace r) = [].
Proof.
  intros Hop r. unfold r, run. destruct op as [a ts|a|a|a].
  - destruct (audit18F_cases config a ts w)
      as [Hf Hrun | au e0 Hf Hm0 Hrun | au ms e0 Hf Hm0 Ha0 Hrun
          | au ms ad e0 Hf Hm0 Ha0 Ht Hrun
          | au ms ad tms Hf Hm0 Ha0 Ht Hrun];
      rewrite Hrun; unfold run_world, run_trace, audit_events; cbn [fst snd];
      try (repeat split; reflexivity).
    + cbn [filter is_update is_audit].
      destruct (no_updates_getTeamMembers (githubAccessToken au) (orgName config)
                  (or_array ts (teams18F config))) as [H1 H2].
      unfold audit_events in H2. now rewrite H1, H2.
    + cbn [filter is_update is_audit]. rewrite !filter_app.
      destruct (no_updates_getTeamMembers (githubAccessToken au) (orgName config)
                  (or_array ts (teams18F config))) as [H1 H2].
      destruct (no_updates_prune config (githubAccessToken au) (pruned ms ad tms))
        as [H3 H4].
      unfold audit_events in H2, H4. now rewrite H1, H2, H3, H4.
  - now contradiction (Hop a).
  - destruct (findAuditor w (or_string a (admin config))) as [au|] eqn:Hf.
    + rewrite (revokeMembershipForInactiveUsers_run _ _ _ _ Hf).
      unfold run_world, run_trace. cbn [fst snd].
      split; [reflexivity|]. apply no_updates_removeMember.
    + rewrite (revokeMembershipForInactiveUsers_no_auditor _ _ _ Hf).
      repeat split.
  - destruct (findAuditor w (or_string a (admin config))) as [au|] eqn:Hf.
    2:{ rewrite (removeMembersWhoAreNotUsers_no_auditor _ _ _ Hf). repeat split. }
    destruct (getOrganizationMembers_ (github w) (githubAccessToken au)
                (orgName config) None) as [ms|e] eqn:Hget.
    + rewrite (removeMembersWhoAreNotUsers_run _ _ _ _ _ Hf Hget).
      unfold run_world, run_trace, audit_events. cbn [fst snd filter is_update is_audit].
      split; [reflexivity|]. apply no_updates_removeMember.
    + rewrite (removeMembersWhoAreNotUsers_gateway_rejects _ _ _ _ _ Hf Hget).
      repeat split.
Qed.

Lemma removal_operations_leave_roster_witness :
  let r := run config0 (Op_revokeMembershipForInactiveUsers None) world_stale in
  run_world r = world_stale
  /\ filter is_update (run_trace r) = []
  /\ audit_events (run_trace r) = [].
Proof.
  apply (removal_operations_leave_roster config0
           (Op_revokeMembershipForInactiveUsers None) world_stale).
  intros a. discriminate.
Defined.

Lemma quiet_audits (f : User -> User) (l : list User) :
  removal_requests (map (fun u => audit_of (f u)) l) = []
  /\ error_events (map (fun u => audit_of (f u)) l) = []
  /\ logged (map (fun u => audit_of (f u)) l) = []
  /\ team_queries (map (fun u => audit_of (f u)) l) = [].
Proof.
  induction l as [|u l (H1 & H2 & H3 & H4)]; [repeat split|].
  cbn [map]. unfold removal_requests, error_events in *.
  cbn [filter is_removal is_error audit_of logged team_queries flat_map app].
  repeat split; assumption.
Qed.

(** X7: [refreshIsActiveUsers] never removes anybody: in every run, however
    it ends, it issues no removal request and no team query, emits no
    failure event and logs nothing; the directory and the clock are as
    before, and the roster holds the same rows up to [isActive]. *)
Theorem refreshIsActiveUsers_removes_nobody
  (config : Config) (a : option string) (w : World) :
  let r := refreshIsActiveUsers config a w in
  removal_requests (run_trace r) = []
  /\ team_queries (run_trace r) = []
  /\ error_events (run_trace r) = []
  /\ logged (run_trace r) = []
  /\ github (run_world r) = github w /\ clock (run_world r) = clock w
  /\ sameRows (users w) (users (run_world r)).
Proof.
  cbv zeta.
  assert (Hsame : forall l : list User, sameRows l l).
  { induction l; constructor; [repeat split | assumption]. }
  destruct (findAuditor w (auditorOf config (Op_refreshIsActiveUsers a)))
    as [auditor|] eqn:Hfind.
  2:{ rewrite (refreshIsActiveUsers_no_auditor _ _ _ Hfind). repeat split.
      apply Hsame. }
  destruct (getOrganizationMembers_ (github w) (githubAccessToken auditor)
              (orgName config) None) as [members|e] eqn:Hget.
  2:{ rewrite (refreshIsActiveUsers_gateway_rejects _ _ _ _ _ Hfind Hget).
      repeat split. apply Hsame. }
  rewrite (refreshIsActiveUsers_users _ _ _ _ _ Hfind Hget).
  rewrite (refreshIsActiveUsers_run _ _ _ _ _ Hfind Hget).
  unfold run_trace. cbn [snd github clock users].
  set (L := loginsOf members).
  destruct (quiet_audits (set_isActive true)
              (filter (eval_where [username_in L; isActive_eq false]) (users w)))
    as (A1 & A2 & A3 & A4).
  destruct (quiet_audits (set_isActive false)
              (filter (eval_where [username_notIn L; isActive_eq true])
                 (map (activate L) (users w))))
    as (B1 & B2 & B3 & B4).
  unfold removal_requests, error_events in *.
  cbn [filter is_removal is_error logged team_queries flat_map app].
  rewrite !filter_app, !flat_map_app.
  cbn [filter is_removal is_error logged team_queries flat_map app].
  fold (logged (map (fun u => audit_of (set_isActive true u))
                  (filter (eval_where [username_in L; isActive_eq false]) (users w)))).
  fold (logged (map (fun u => audit_of (set_isActive false u))
                  (filter (eval_where [username_notIn L; isActive_eq true])
                     (map (activate L) (users w))))).
  fold (team_queries (map (fun u => audit_of (set_isActive true u))
                  (filter (eval_where [username_in L; isActive_eq false]) (users w)))).
  fold (team_queries (map (fun u => audit_of (set_isActive false u))
                  (filter (eval_where [username_notIn L; isActive_eq true])
                     (map (activate L) (users w))))).
  rewrite A1, A2, A3, A4, B1, B2, B3, B4.
  repeat split.
  clear. induction (users w) as [|u l IH]; constructor; [|exact IH].
  rewrite refreshed_spec. repeat split.
Qed.

(** ** More on [refreshIsActiveUsers] *)

(** X8: after a run of [refreshIsActiveUsers] that finds its auditor and
    gets the member list, a roster row is active if and only if its username
    is the lower-cased login of a member of the organization, whatever the
    flags were before. *)
Theorem refreshIsActiveUsers_mirrors_membership
  (config : Config) (a : option string) (w : World) (auditor : User)
  (members : list Member) :
  findAuditor w (auditorOf config (Op_refreshIsActiveUsers a)) = Some auditor ->
  getOrganizationMembers_ (github w) (githubAccessToken auditor) (orgName config) None
  = Fulfilled members ->
  forall u, In u (users (run_world (refreshIsActiveUsers config a w))) ->
            (isActive u = true
             <-> exists m, In m members /\ username u = toLowerCase (login m)).
Proof.
  intros Hfind Hget u Hin.
  rewrite (refreshIsActiveUsers_users _ _ _ _ _ Hfind Hget) in Hin.
  cbn [users] in Hin. apply in_map_iff in Hin. destruct Hin as [v [<- _]].
  rewrite refreshed_spec. cbn [set_isActive isActive username].
  rewrite includes_In. unfold loginsOf. rewrite in_map_iff.
  split; intros [m Hm]; exists m; destruct Hm; split; congruence.
Qed.

Lemma refreshIsActiveUsers_mirrors_membership_witness :
  isActive (set_isActive true (roster_user 2 "jane" false (399 * day) 0)) = true
  <-> exists m, In m [mkMember "admin"; mkMember "Jane"]
                /\ username (set_isActive true (roster_user 2 "jane" false (399 * day) 0))
                   = toLowerCase (login m).
Proof.
  apply (refreshIsActiveUsers_mirrors_membership config0 None world_refresh auditor0
           [mkMember "admin"; mkMember "Jane"] eq_refl eq_refl).
  right. left. reflexivity.
Defined.

(** X9: when the directory rejects the member query, [refreshIsActiveUsers]
    and [removeMembersWhoAreNotUsers] are rejected with that error after this
    one request: no row is updated, no audit or failure event is emitted and
    no removal is requested. *)
Theorem member_query_rejected_aborts
  (config : Config) (a : option string) (w : World) (auditor : User) (e : JsError)
  (op : Operation) :
  op = Op_refreshIsActiveUsers a \/ op = Op_removeMembersWhoAreNotUsers a ->
  findAuditor w (auditorOf config op) = Some auditor ->
  getOrganizationMembers_ (github w) (githubAccessToken auditor) (orgName config) None
  = Rejected e ->
  run config op w
  = (Rejected e, w,
     [Call_getOrganizationMembers (githubAccessToken auditor) (orgName config) None]).
Proof.
  intros [-> | ->] Hfind Hget; unfold run.
  - apply (refreshIsActiveUsers_gateway_rejects _ _ _ _ _ Hfind Hget).
  - cbn [auditorOf] in Hfind.
    now rewrite (removeMembersWhoAreNotUsers_gateway_rejects _ _ _ _ _ Hfind Hget).
Qed.

(** ** Failures of single removals *)

Lemma error_events_removeMember (config : Config) (w : World) (token : string)
  (ls : list string) :
  error_events (flat_map (removeMember_trace config w token) ls)
  = flat_map (failure_of config w token) ls.
Proof.
  induction ls as [|l ls IH]; [reflexivity|].
  cbn [flat_map]. rewrite error_events_app, IH. f_equal.
  unfold removeMember_trace, failure_of.
  destruct (removeOrganizationMember_ (github w) token (orgName config) l);
    reflexivity.
Qed.

(** X10: once its auditor is found, [revokeMembershipForInactiveUsers] is
    always fulfilled, with one value per selected row; it requests the
    removal of every selected username whatever the earlier removals did,
    and emits exactly one failure event for each removal the directory
    rejects, and none for the others. *)
Theorem revokeMembershipForInactiveUsers_isolates_failures
  (config : Config) (a : option string) (w : World) (auditor : User) :
  findAuditor w (or_string a (admin config)) = Some auditor ->
  let r := revokeMembershipForInactiveUsers config a w in
  let selected := map username (selectedForRevocation config w) in
  run_result r = Fulfilled (map (fun _ => tt) selected)
  /\ removed_logins (run_trace r) = selected
  /\ error_events (run_trace r)
     = flat_map (failure_of config w (githubAccessToken auditor)) selected.
Proof.
  intros Hfind r selected. unfold r.
  rewrite (revokeMembershipForInactiveUsers_run _ _ _ _ Hfind).
  unfold run_result, run_trace. cbn [fst snd]. fold selected.
  split; [reflexivity|]. split.
  - apply removed_logins_removeMember.
  - apply error_events_removeMember.
Qed.

Lemma member_query_rejected_aborts_witness :
  run config0 (Op_refreshIsActiveUsers None) world_members_down
  = (Rejected {| name := "HttpError"; message := "Bad Gateway" |}, world_members_down,
     [Call_getOrganizationMembers "secret" "federalist-users" None]).
Proof.
  exact (member_query_rejected_aborts config0 None world_members_down auditor0
           {| name := "HttpError"; message := "Bad Gateway" |}
           (Op_refreshIsActiveUsers None) (or_introl eq_refl) eq_refl eq_refl).
Defined.

Lemma revokeMembershipForInactiveUsers_isolates_failures_witness :
  let r := revokeMembershipForInactiveUsers config0 None world_two_failures in
  run_result r = Fulfilled [tt; tt; tt]
  /\ removed_logins (run_trace r) = ["alice"; "bob"; "carol"]
  /\ error_events (run_trace r)
     = [Error_event FEDERALIST_USERS {| name := "HttpError"; message := "Forbidden" |}
          "alice" "removeOrgMember";
        Error_event FEDERALIST_USERS {| name := "HttpError"; message := "Forbidden" |}
          "carol" "removeOrgMember"].
Proof.
  exact (revokeMembershipForInactiveUsers_isolates_failures config0 None
           world_two_failures auditor0 eq_refl).
Defined.

(** X11: once its auditor is found and the member list is there,
    [removeMembersWhoAreNotUsers] is always fulfilled, with one value per
    removal request, and emits exactly one failure event for each removal
    the directory rejects, and none for the others. *)
Theorem removeMembersWhoAreNotUsers_isolates_failures
  (config : Config) (a : option string) (w : World) (auditor : User)
  (allMembers : list Member) :
  findAuditor w (or_string a (admin config)) = Some auditor ->
  getOrganizationMembers_ (github w) (githubAccessToken auditor) (orgName config) None
  = Fulfilled allMembers ->
  let r := removeMembersWhoAreNotUsers config a w in
  run_result r = Fulfilled (map (fun _ => tt) (removed_logins (run_trace r)))
  /\ error_events (run_trace r)
     = flat_map (failure_of config w (githubAccessToken auditor))
         (removed_logins (run_trace r)).
Proof.
  intros Hfind Hget r. unfold r.
  rewrite (removeMembersWhoAreNotUsers_run _ _ _ _ _ Hfind Hget).
  unfold run_result, run_trace. cbn [fst snd].
  cbn [removed_logins error_events flat_map filter is_error app].
  fold (removed_logins
          (flat_map (removeMember_trace config w (githubAccessToken auditor))
             (memberLoginsToRemove (map username (users w)) allMembers))).
  fold (error_events
          (flat_map (removeMember_trace config w (githubAccessToken auditor))
             (memberLoginsToRemove (map username (users w)) allMembers))).
  rewrite removed_logins_removeMember, error_events_removeMember. now split.
Qed.

Lemma removeMembersWhoAreNotUsers_isolates_failures_witness :
  let r := removeMembersWhoAreNotUsers config0 None world_two_failures in
  run_result r = Fulfilled [tt; tt]
  /\ error_events (run_trace r)
     = [Error_event FEDERALIST_USERS {| name := "HttpError"; message := "Forbidden" |}
          "zed" "removeOrgMember"].
Proof.
  exact (removeMembersWhoAreNotUsers_isolates_failures config0 None
           world_two_failures auditor0
           [mkMember "admin"; mkMember "Ghost"; mkMember "alice"; mkMember "zed"]
           eq_refl eq_refl).
Defined.

(** ** The staleness window *)

Lemma date_lt_mono (at_ : DateAttr) (d1 d2 : Z) (u : User) :
  d1 <= d2 -> eval_cond (date_lt at_ d1) u = true -> eval_cond (date_lt at_ d2) u = true.
Proof.
  intros Hle. rewrite !date_lt_before. intros [x [Hx Hlt]].
  exists x. split; [assumption | lia].
Qed.

(** Widening the staleness window never selects more rows: with the
    same roster and clock, every row that
    [revokeMembershipForInactiveUsers] selects under a larger
    [maxDaysSinceLogin] is also selected under a smaller one. *)
Theorem selectedForRevocation_window_monotone
  (config1 config2 : Config) (w : World) (u : User) :
  maxDaysSinceLogin config1 <= maxDaysSinceLogin config2 ->
  In u (selectedForRevocation config2 w) ->
  In u (selectedForRevocation config1 w).
Proof.
  intros Hle. unfold selectedForRevocation. rewrite !filter_In.
  intros [Hin Hsel]. split; [assumption|].
  assert (Hcut : cutoff_of config2 w <= cutoff_of config1 w)
    by (unfold cutoff_of, subtract_days; lia).
  unfold eval_where in *. cbn [forallb] in *.
  rewrite !andb_true_iff in *.
  destruct Hsel as (H0 & H1 & H2 & H3 & _).
  repeat split; try assumption; eapply date_lt_mono; eassumption.
Qed.

Lemma selectedForRevocation_window_monotone_witness :
  In (roster_user 2 "alice" true (100 * day) 0)
    (selectedForRevocation config0 world_stale).
Proof.
  apply (selectedForRevocation_window_monotone config0
           {| orgName := "federalist-users"; maxDaysSinceLogin := 180;
              admin := "admin"; teams18F := [] |} world_stale).
  - cbn. lia.
  - left. reflexivity.
Defined.

(** ** Operations in sequence *)

(** X13: run right after a [refreshIsActiveUsers] that got the member list,
    [revokeMembershipForInactiveUsers] only requests the removal of
    usernames that are lower-cased logins of members of the organization:
    rows the refresh set inactive are not selected. *)
Theorem revoke_after_refresh_removes_members_only
  (config : Config) (a a' : option string) (w : World) (auditor : User)
  (members : list Member) (l : string) :
  findAuditor w (auditorOf config (Op_refreshIsActiveUsers a)) = Some auditor ->
  getOrganizationMembers_ (github w) (githubAccessToken auditor) (orgName config) None
  = Fulfilled members ->
  let w1 := run_world (refreshIsActiveUsers config a w) in
  In l (removed_logins (run_trace (revokeMembershipForInactiveUsers config a' w1))) ->
  exists m, In m members /\ l = toLowerCase (login m).
Proof.
  intros Hfind Hget w1 Hin.
  destruct (findAuditor w1 (or_string a' (admin config))) as [au|] eqn:Hf.
  2:{ rewrite (revokeMembershipForInactiveUsers_no_auditor _ _ _ Hf) in Hin.
      destruct Hin. }
  rewrite (revokeMembershipForInactiveUsers_run _ _ _ _ Hf) in Hin.
  unfold run_trace in Hin. cbn [snd] in Hin.
  rewrite removed_logins_removeMember in Hin.
  apply in_map_iff in Hin. destruct Hin as [u [<- Hu]].
  apply selectedForRevocation_Stale in Hu. destruct Hu as [Hu [Hact _]].
  apply (refreshIsActiveUsers_mirrors_membership _ _ _ _ _ Hfind Hget u Hu).
  exact Hact.
Qed.

Lemma revoke_after_refresh_removes_members_only_witness :
  exists m, In m [mkMember "admin"; mkMember "Alice"] /\ "alice" = toLowerCase (login m).
Proof.
  apply (revoke_after_refresh_removes_members_only config0 None None
           world_refresh_stale auditor0 [mkMember "admin"; mkMember "Alice"] "alice");
    try reflexivity.
  vm_compute. left. reflexivity.
Defined.

(** ** The credential of the requests *)

Lemma made_with_removeMember (config : Config) (w : World) (token : string)
  (ls : list string) :
  Forall (made_with token) (flat_map (removeMember_trace config w token) ls).
Proof.
  induction ls as [|l ls IH]; [constructor|].
  cbn [flat_map]. apply Forall_app. split; [|exact IH].
  unfold removeMember_trace.
  destruct (removeOrganizationMember_ (github w) token (orgName config) l);
    repeat constructor; intros t Ht; cbn in Ht; congruence.
Qed.

Lemma made_with_prune (config : Config) (token : string) (ls : list string) :
  Forall (made_with token) (flat_map (prune_trace config token) ls).
Proof.
  induction ls as [|l ls IH]; [constructor|].
  cbn [flat_map prune_trace app].
  repeat constructor; try exact IH; intros t Ht; cbn in Ht; congruence.
Qed.

Lemma made_with_getTeamMembers (token org : string) (ts : list string) :
  Forall (made_with token) (map (Call_getTeamMembers token org) ts).
Proof.
  induction ts as [|x l IH]; constructor; [|exact IH].
  intros t Ht. cbn in Ht. congruence.
Qed.

Lemma made_with_audits (token : string) (f : User -> User) (l : list User) :
  Forall (made_with token) (map (fun u => audit_of (f u)) l).
Proof.
  induction l as [|x l IH]; constructor; [|exact IH].
  intros t Ht. discriminate.
Qed.

Lemma made_with_call (token org : string) (role : option string) :
  made_with token (Call_getOrganizationMembers token org role).
Proof. intros t Ht. cbn in Ht. congruence. Qed.

Lemma made_with_update (token : string) (b : bool) (wh : Where) :
  made_with token (Call_update b wh).
Proof. intros t Ht. discriminate. Qed.

(** X14: every request that an operation sends to the directory (member
    query, team query or removal) is made with the token of the auditor row
    the operation looked up, and with no other. *)
Theorem requests_use_auditor_token
  (config : Config) (op : Operation) (w : World) (auditor : User) :
  findAuditor w (auditorOf config op) = Some auditor ->
  Forall (made_with (githubAccessToken auditor)) (run_trace (run config op w)).
Proof.
  intros Hfind. destruct op as [a ts|a|a|a]; unfold run; cbn [auditorOf] in Hfind.
  - destruct (audit18F_cases config a ts w)
      as [Hf Hrun | au e0 Hf Hm0 Hrun | au ms e0 Hf Hm0 Ha0 Hrun
          | au ms ad e0 Hf Hm0 Ha0 Ht Hrun
          | au ms ad tms Hf Hm0 Ha0 Ht Hrun];
      rewrite Hrun; unfold run_trace; cbn [snd];
      try (rewrite Hfind in Hf; injection Hf as <-).
    + constructor.
    + repeat constructor; apply made_with_call.
    + repeat constructor; apply made_with_call.
    + repeat (constructor; [apply made_with_call|]).
      apply made_with_getTeamMembers.
    + repeat (constructor; [apply made_with_call|]).
      apply Forall_app. split;
        [apply made_with_getTeamMembers | apply made_with_prune].
  - destruct (getOrganizationMembers_ (github w) (githubAccessToken auditor)
                (orgName config) None) as [ms|e] eqn:Hget.
    + rewrite (refreshIsActiveUsers_run _ _ _ _ _ Hfind Hget).
      unfold run_trace. cbn [snd].
      constructor; [apply made_with_call|].
      constructor; [apply made_with_update|].
      apply Forall_app. split; [apply made_with_audits|].
      constructor; [apply made_with_update | apply made_with_audits].
    + rewrite (refreshIsActiveUsers_gateway_rejects _ _ _ _ _ Hfind Hget).
      repeat constructor. apply made_with_call.
  - rewrite (revokeMembershipForInactiveUsers_run _ _ _ _ Hfind).
    unfold run_trace. cbn [snd]. apply made_with_removeMember.
  - destruct (getOrganizationMembers_ (github w) (githubAccessToken auditor)
                (orgName config) None) as [ms|e] eqn:Hget.
    + rewrite (removeMembersWhoAreNotUsers_run _ _ _ _ _ Hfind Hget).
      unfold run_trace. cbn [snd].
      constructor; [apply made_with_call | apply made_with_removeMember].
    + rewrite (removeMembersWhoAreNotUsers_gateway_rejects _ _ _ _ _ Hfind Hget).
      repeat constructor. apply made_with_call.
Qed.

Lemma requests_use_auditor_token_witness :
  Forall (made_with "secret")
    (run_trace (run config0 (Op_audit18F None None) world_teams)).
Proof.
  exact (requests_use_auditor_token config0 (Op_audit18F None None) world_teams
           auditor0 eq_refl).
Defined.

(** ** Arguments that are empty *)

(** X15: an empty [auditorUsername] stands for the configured admin in
    [audit18F], [revokeMembershipForInactiveUsers] and
    [removeMembersWhoAreNotUsers], which then run as without the argument;
    [refreshIsActiveUsers] looks the empty username up instead, and is
    rejected before any effect when no row carries it. *)
Theorem empty_auditorUsername
  (config : Config) (ts : option (list string)) (w : World) :
  (forall u, In u (users w) -> username u <> "") ->
  audit18F config (Some "") ts w = audit18F config None ts w
  /\ revokeMembershipForInactiveUsers config (Some "") w
     = revokeMembershipForInactiveUsers config None w
  /\ removeMembersWhoAreNotUsers config (Some "") w
     = removeMembersWhoAreNotUsers config None w
  /\ refreshIsActiveUsers config (Some "") w
     = (Rejected (TypeError_destructure "githubAccessToken"), w, []).
Proof.
  intros Hnone. repeat split.
  apply refreshIsActiveUsers_no_auditor. cbn [auditorOf].
  now apply findAuditor_None.
Qed.

Lemma empty_auditorUsername_witness :
  audit18F config0 (Some "") None world_refresh = audit18F config0 None None world_refresh
  /\ revokeMembershipForInactiveUsers config0 (Some "") world_refresh
     = revokeMembershipForInactiveUsers config0 None world_refresh
  /\ removeMembersWhoAreNotUsers config0 (Some "") world_refresh
     = removeMembersWhoAreNotUsers config0 None world_refresh
  /\ refreshIsActiveUsers config0 (Some "") world_refresh
     = (Rejected (TypeError_destructure "githubAccessToken"), world_refresh, []).
Proof.
  apply (empty_auditorUsername config0 None world_refresh).
  intros u [<- | [<- | [<- | [<- | []]]]]; discriminate.
Defined.

(** X16: an empty array of teams is not replaced by the configured teams:
    [audit18F] then makes the two member queries only, queries no team,
    requests no removal and is fulfilled with an empty list. *)
Theorem audit18F_no_teams
  (config : Config) (a : option string) (w : World) (auditor : User)
  (members admins : list Member) :
  let token := githubAccessToken auditor in
  findAuditor w (or_string a (admin config)) = Some auditor ->
  getOrganizationMembers_ (github w) token "18F" None = Fulfilled members ->
  getOrganizationMembers_ (github w) token (orgName config) (Some "admin")
  = Fulfilled admins ->
  audit18F config a (Some []) w
  = (Fulfilled [], w,
     [Call_getOrganizationMembers token "18F" None;
      Call_getOrganizationMembers token (orgName config) (Some "admin")]).
Proof.
  intros token Hfind Hm Ha.
  rewrite (audit18F_run config a (Some []) w auditor members admins [] Hfind Hm Ha eq_refl).
  unfold pruned, loginsToPrune. cbn [concat map filter or_array].
  now destruct (0 <? Z.of_nat (length (map login members))).
Qed.

Lemma audit18F_no_teams_witness :
  audit18F config0 None (Some []) world_teams
  = (Fulfilled [], world_teams,
     [Call_getOrganizationMembers "secret" "18F" None;
      Call_getOrganizationMembers "secret" "federalist-users" (Some "admin")]).
Proof.
  exact (audit18F_no_teams config0 None world_teams auditor0
           [mkMember "Jane"; mkMember "peggy"] [mkMember "Boss"]
           eq_refl eq_refl eq_refl).
Defined.

(** ** [federalistUsersAdmins] *)

Lemma removed_logins_In (t : Trace) (l : string) :
  In l (removed_logins t) ->
  exists token org, In (Call_removeOrganizationMember token org l) t.
Proof.
  induction t as [|e t IH]; [intros []|].
  cbn [removed_logins flat_map]. intros Hin. apply in_app_or in Hin.
  destruct Hin as [Hin | Hin].
  - destruct e; try destruct Hin as [<- | []]; try destruct Hin.
    exists token, org. now left.
  - destruct (IH Hin) as (token & org & H). exists token, org. now right.
Qed.

(** X17: [federalistUsersAdmins] makes one admin query, changes nothing and
    yields the admins' logins in the directory's order, or the directory's
    error; and [audit18F] run by an auditor never requests the removal of a
    login that [federalistUsersAdmins] yields for that auditor's token. *)
Theorem federalistUsersAdmins_exempt
  (config : Config) (a : option string) (ts : option (list string)) (w : World)
  (auditor : User) :
  findAuditor w (or_string a (admin config)) = Some auditor ->
  let r := federalistUsersAdmins config (githubAccessToken auditor) w in
  run_world r = w
  /\ run_trace r = [Call_getOrganizationMembers (githubAccessToken auditor)
                      (orgName config) (Some "admin")]
  /\ run_result r
     = match getOrganizationMembers_ (github w) (githubAccessToken auditor)
               (orgName config) (Some "admin") with
       | Fulfilled admins => Fulfilled (map login admins)
       | Rejected e => Rejected e
       end
  /\ forall logins l,
       run_result r = Fulfilled logins -> In l logins ->
       ~ In l (removed_logins (run_trace (audit18F config a ts w))).
Proof.
  intros Hfind r.
  assert (Hr : r = (match getOrganizationMembers_ (github w) (githubAccessToken auditor)
                            (orgName config) (Some "admin") with
                    | Fulfilled admins => Fulfilled (map login admins)
                    | Rejected e => Rejected e
                    end, w,
                    [Call_getOrganizationMembers (githubAccessToken auditor)
                       (orgName config) (Some "admin")])).
  { unfold r, federalistUsersAdmins, bindA, GitHub_getOrganizationMembers,
      FEDERALIST_ORG.
    destruct (getOrganizationMembers_ (github w) (githubAccessToken auditor)
                (orgName config) (Some "admin")); reflexivity. }
  rewrite Hr. unfold run_world, run_trace, run_result. cbn [fst snd].
  repeat split.
  intros logins l Hres Hl Hin.
  apply removed_logins_In in Hin. destruct Hin as (token & org & Hin).
  apply audit18F_removal_justified in Hin.
  destruct Hin as (au & ms & ad & Hf & -> & -> & _ & Had & _ & _ & Hnot & _).
  rewrite Hfind in Hf. injection Hf as <-.
  rewrite Had in Hres. injection Hres as <-. contradiction.
Qed.

Lemma federalistUsersAdmins_exempt_witness :
  let r := federalistUsersAdmins config0 "secret" world_teams in
  run_world r = world_teams
  /\ run_trace r = [Call_getOrganizationMembers "secret" "federalist-users" (Some "admin")]
  /\ run_result r = Fulfilled ["Boss"]
  /\ forall logins l,
       run_result r = Fulfilled logins -> In l logins ->
       ~ In l (removed_logins (run_trace (audit18F config0 None None world_teams))).
Proof.
  exact (federalistUsersAdmins_exempt config0 None None world_teams auditor0 eq_refl).
Defined.

(** ** api/bull-board/config.js *)

(** X18: the bull-board configuration loads unless the process runs in
    production without credentials for the database or for Redis, each
    looked up under its name for the current [APP_ENV]; missing UAA
    credentials do not stop it. Outside production the module exports the
    API's configuration, whatever services are bound. *)
Theorem bullBoardConfig_loads {A : Type} (env : ProcessEnv)
  (getServiceCreds : string -> option Creds) (apiConfig : A) :
  ((exists c, bullBoardConfig env getServiceCreds apiConfig = Normal c)
   <-> NODE_ENV env <> Some "production"
       \/ (getServiceCreds (rdsService env) <> None
           /\ getServiceCreds (redisService env) <> None))
  /\ (NODE_ENV env <> Some "production" ->
      bullBoardConfig env getServiceCreds apiConfig = Normal (ApiConfig apiConfig)).
Proof.
  unfold bullBoardConfig.
  destruct (NODE_ENV env) as [mode|].
  2:{ split; [|reflexivity]. split; [intros _; left; discriminate|].
      intros _. now eexists. }
  destruct (String.eqb mode "production") eqn:Hmode.
  - apply String.eqb_eq in Hmode. subst mode.
    split; [|intros H; now contradiction H].
    destruct (getServiceCreds (rdsService env)) as [rds|];
      destruct (getServiceCreds (redisService env)) as [redis|]; split;
      try (intros [c Hc]; discriminate);
      try (intros _; right; split; discriminate);
      try (intros _; now eexists);
      intros [H | [H1 H2]]; congruence.
  - apply String.eqb_neq in Hmode.
    split; [|reflexivity]. split.
    + intros _. left. congruence.
    + intros _. now eexists.
Qed.

(** X19: in production the database credentials are checked first: without
    them the module throws "No database credentials found." whether or not
    Redis and UAA are bound; with them and without Redis credentials it
    throws "No Redis credentials found"; and whenever it loads, both are
    bound and the export holds the database's [db_name], [host], [username],
    [password] and [port], the Redis [uri] as [url] and the UAA credentials as
    found, never the API's configuration. *)
Theorem bullBoardConfig_production {A : Type} (env : ProcessEnv)
  (getServiceCreds : string -> option Creds) (apiConfig : A) :
  NODE_ENV env = Some "production" ->
  let r := bullBoardConfig env getServiceCreds apiConfig in
  (getServiceCreds (rdsService env) = None ->
   r = Throw (Error_ "No database credentials found."))
  /\ (getServiceCreds (rdsService env) <> None ->
      getServiceCreds (redisService env) = None ->
      r = Throw (Error_ "No Redis credentials found"))
  /\ (forall c, r = Normal c ->
      exists rds redis,
        getServiceCreds (rdsService env) = Some rds
        /\ getServiceCreds (redisService env) = Some redis
        /\ c = ProductionConfig
                 {| database := prop rds "db_name"; host := prop rds "host";
                    user := prop rds "username"; password := prop rds "password";
                    port := prop rds "port" |}
                 (prop redis "uri")
                 (getServiceCreds (uaaService env))).
Proof.
  intros Hmode r. unfold r, bullBoardConfig. rewrite Hmode.
  replace (String.eqb "production" "production") with true by reflexivity.
  destruct (getServiceCreds (rdsService env)) as [rds|];
    destruct (getServiceCreds (redisService env)) as [redis|];
    repeat split; try congruence; try discriminate.
  intros c Hc. injection Hc as <-. now exists rds, redis.
Qed.

Lemma bullBoardConfig_production_witness :
  let r := bullBoardConfig (mkEnv (Some "production") (Some "staging")) services0 tt in
  r = Normal (ProductionConfig
                {| database := Some "pages"; host := Some "db.internal";
                   user := Some "u"; password := Some "p"; port := Some "5432" |}
                (Some "rediss://queue.internal") None)
  /\ bullBoardConfig (mkEnv (Some "production") None) services0 tt
     = Throw (Error_ "No database credentials found.").
Proof.
  split.
  - destruct (bullBoardConfig_production (mkEnv (Some "production") (Some "staging"))
                services0 tt eq_refl) as (_ & _ & H).
    reflexivity.
  - destruct (bullBoardConfig_production (mkEnv (Some "production") None)
                services0 tt eq_refl) as (H & _).
    apply H. reflexivity.
Defined.

(** ** The staleness window and the removals *)

(** X12: widening the staleness window never removes more: with the same
    roster, clock and directory, every login whose removal
    [revokeMembershipForInactiveUsers] requests under a larger
    [maxDaysSinceLogin] is also requested under a smaller one, once the
    auditor of the latter run is found. *)
Theorem revoke_window_monotone
  (config1 config2 : Config) (a : option string) (w : World) (auditor : User)
  (l : string) :
  maxDaysSinceLogin config1 <= maxDaysSinceLogin config2 ->
  findAuditor w (or_string a (admin config1)) = Some auditor ->
  In l (removed_logins (run_trace (revokeMembershipForInactiveUsers config2 a w))) ->
  In l (removed_logins (run_trace (revokeMembershipForInactiveUsers config1 a w))).
Proof.
  intros Hle Hfind Hin.
  rewrite (revokeMembershipForInactiveUsers_run _ _ _ _ Hfind).
  unfold run_trace. cbn [snd]. rewrite removed_logins_removeMember.
  destruct (findAuditor w (or_string a (admin config2))) as [au|] eqn:Hf.
  2:{ rewrite (revokeMembershipForInactiveUsers_no_auditor _ _ _ Hf) in Hin.
      destruct Hin. }
  rewrite (revokeMembershipForInactiveUsers_run _ _ _ _ Hf) in Hin.
  unfold run_trace in Hin. cbn [snd] in Hin.
  rewrite removed_logins_removeMember in Hin.
  apply in_map_iff in Hin. destruct Hin as [u [<- Hu]].
  apply in_map. now apply (selectedForRevocation_window_monotone config1 config2).
Qed.

Lemma revoke_window_monotone_witness :
  In "alice" (removed_logins (run_trace (revokeMembershipForInactiveUsers config0 None
                                           world_stale))).
Proof.
  apply (revoke_window_monotone config0
           {| orgName := "federalist-users"; maxDaysSinceLogin := 180;
              admin := "admin"; teams18F := [] |} None world_stale auditor0 "alice").
  - cbn. lia.
  - reflexivity.
  - vm_compute. left. reflexivity.
Defined.
